(** * HighFive: datatype descriptors and compound layout

    A shallow embedding of [include/highfive/bits/H5DataType_misc.hpp]:
    the struct-padding macro, [find_first_atomic_member_size],
    [CompoundType::create], the two [commit] members,
    [create_and_check_datatype] and [FixedLenStringArray<N>].

    [size_t] values are integers in [Z] reduced modulo [2^64]; HDF5
    identifiers ([hid_t]) are the descriptor trees they denote; a C++
    call that may throw or has undefined behaviour returns a [result]. *)

From Stdlib Require Import ZArith Lia Bool.
From Stdlib Require Import Strings.String Strings.Byte.
From Stdlib Require Import DecimalString DecimalN.
From stdpp Require Import base tactics option list strings.

Local Open Scope Z_scope.

(** ** Outcomes of a C++ call *)

(** The [DataTypeException]s the file raises, one constructor per
    [throw] site or [HDF5ErrMapper::ToException] call. *)
Inductive DataTypeException : Type :=
| Error_getting_size                 (* "Error getting size of datatype." *)
| Unable_to_define_variable          (* "Unable to define datatype size to variable" *)
| Cannot_get_members                 (* "Cannot get members of CompoundType with hid: " *)
| No_members_defined                 (* "No members defined for CompoundType with hid: " *)
| Cannot_get_size                    (* "Cannot get size of DataType with hid: " *)
| Could_not_create_compound          (* "Could not create new compound datatype" *)
| Could_not_add_member               (* "Could not add new member to datatype" *)
| Type_not_valid                     (* "Type given to create_and_check_datatype is not valid" *)
| Size_of_array_type (sizeof_T size : Z).
                                     (* "Size of array type " .. " != that of memory datatype " .. *)

(** [Ok a]: the call returns [a]; [Throw e]: it throws [e];
    [Undefined]: it runs into undefined behaviour (a modulo by zero, an
    access outside an array). *)
Inductive result (A : Type) : Type :=
| Ok (a : A)
| Throw (e : DataTypeException)
| Undefined.
Arguments Ok {A} a.
Arguments Throw {A} e.
Arguments Undefined {A}.

#[global] Instance result_ret : MRet result := fun _ a => Ok a.
#[global] Instance result_bind : MBind result := fun _ _ k r =>
  match r with
  | Ok a => k a
  | Throw e => Throw e
  | Undefined => Undefined
  end.

Definition throws {A : Type} (r : result A) : Prop := exists e, r = Throw e.

(** Modelled from the spec: [HDF5ErrMapper::ToException<DataTypeException>]
    is defined outside this file; it is the error-raising primitive, which
    aborts the current operation with the given message. *)
Definition ToException {A : Type} (e : DataTypeException) : result A := Throw e.

(** ** [size_t] arithmetic *)

Definition SIZE_MAX : Z := 2 ^ 64 - 1.
Definition size_t_range (z : Z) : Prop := 0 <= z <= SIZE_MAX.

Definition size_add (a b : Z) : Z := (a + b) mod 2 ^ 64.
Definition size_sub (a b : Z) : Z := (a - b) mod 2 ^ 64.

(** ** The struct-padding macro *)

(** [_H5_STRUCT_PADDING(current_size, member_size)]; both branches take
    a remainder by [member_size], which is undefined when it is zero. *)
Definition _H5_STRUCT_PADDING (current_size member_size : Z) : result Z :=
  if member_size =? 0 then Undefined
  else if member_size >=? current_size
       then Ok (size_sub member_size current_size mod member_size)
       else Ok (size_sub member_size
                         (size_sub current_size member_size mod member_size)
                mod member_size).

(** ** The storage library's datatype descriptors *)

Inductive H5T_class_t : Type :=
| H5T_NO_CLASS | H5T_INTEGER | H5T_FLOAT | H5T_TIME | H5T_STRING
| H5T_BITFIELD | H5T_OPAQUE | H5T_COMPOUND | H5T_REFERENCE | H5T_ENUM
| H5T_VLEN | H5T_ARRAY | H5T_NCLASSES.

#[global] Instance H5T_class_t_eq_dec : EqDecision H5T_class_t.
Proof. solve_decision. Defined.

(** What an identifier denotes: nothing ([H5I_INVALID_HID]), or a
    datatype with its class, its byte size, whether it is a
    variable-length string, and, for a compound, its members as
    (name, offset, member type) in insertion order. *)
#[warnings="-register-all"] Inductive hid_t : Type :=
| H5I_INVALID_HID
| H5T (class : H5T_class_t) (size : Z) (variable_str : bool)
      (members : list (string * Z * hid_t)).

(** Induction on a descriptor, with the property of every member type
    at hand. *)
Fixpoint hid_t_members_ind (P : hid_t -> Prop) (Hinvalid : P H5I_INVALID_HID)
    (Htype : forall class size v members,
        Forall (fun m => P m.2) members -> P (H5T class size v members))
    (hid : hid_t) : P hid :=
  match hid with
  | H5I_INVALID_HID => Hinvalid
  | H5T class size v members =>
      Htype class size v members
        ((fix all (l : list (string * Z * hid_t)) : Forall (fun m => P m.2) l :=
            match l with
            | [] => @List.Forall_nil _ (fun m => P m.2)
            | m :: rest =>
                @List.Forall_cons _ (fun m => P m.2) m rest
                  (hid_t_members_ind P Hinvalid Htype m.2) (all rest)
            end) members)
  end.

Definition H5Tget_class (hid : hid_t) : H5T_class_t :=
  match hid with
  | H5I_INVALID_HID => H5T_NO_CLASS
  | H5T class _ _ _ => class
  end.

(** Zero is the library's failure value. *)
Definition H5Tget_size (hid : hid_t) : Z :=
  match hid with
  | H5I_INVALID_HID => 0
  | H5T _ size _ _ => size
  end.

Definition H5Tget_members (hid : hid_t) : list (string * Z * hid_t) :=
  match hid with
  | H5I_INVALID_HID => []
  | H5T _ _ _ members => members
  end.

(** Defined for compound and enum types, [-1] otherwise. *)
Definition H5Tget_nmembers (hid : hid_t) : Z :=
  match hid with
  | H5T H5T_COMPOUND _ _ members | H5T H5T_ENUM _ _ members =>
      Z.of_nat (length members)
  | _ => -1
  end.

Definition H5Tget_member_type (hid : hid_t) (membno : nat) : hid_t :=
  match H5Tget_members hid !! membno with
  | Some (_, _, member_type) => member_type
  | None => H5I_INVALID_HID
  end.

Definition H5Tget_member_offset (hid : hid_t) (membno : nat) : Z :=
  match H5Tget_members hid !! membno with
  | Some (_, offset, _) => offset
  | None => 0
  end.

(** A [htri_t]: negative on failure, positive for true, zero for false. *)
Definition H5Tis_variable_str (hid : hid_t) : Z :=
  match hid with
  | H5I_INVALID_HID => -1
  | H5T _ _ variable_str _ => if variable_str then 1 else 0
  end.

Fixpoint hid_eqb (a b : hid_t) : bool :=
  match a, b with
  | H5I_INVALID_HID, H5I_INVALID_HID => true
  | H5T c1 s1 v1 ms1, H5T c2 s2 v2 ms2 =>
      bool_decide (c1 = c2) && (s1 =? s2) && Bool.eqb v1 v2 &&
      (fix members_eqb (l1 l2 : list (string * Z * hid_t)) : bool :=
         match l1, l2 with
         | [], [] => true
         | (n1, o1, t1) :: r1, (n2, o2, t2) :: r2 =>
             String.eqb n1 n2 && (o1 =? o2) && hid_eqb t1 t2 && members_eqb r1 r2
         | _, _ => false
         end) ms1 ms2
  | _, _ => false
  end.

(** A [htri_t]: the two identifiers denote equal datatypes. *)
Definition H5Tequal (a b : hid_t) : Z :=
  match a, b with
  | H5I_INVALID_HID, _ | _, H5I_INVALID_HID => -1
  | _, _ => if hid_eqb a b then 1 else 0
  end.

(** The storage object a datatype is committed to. *)
Record Object : Type := { getId : Z }.

(** The part of the storage library whose outcome the wrapper cannot
    predict: the predefined reference type, and whether creating a type,
    inserting a member and committing a type succeed. *)
Record H5Library : Type := {
  H5T_STD_REF_OBJ : hid_t;
  H5Tcreate_fails : H5T_class_t -> Z -> bool;
  H5Tinsert_fails : hid_t -> string -> Z -> hid_t -> bool;
  H5Tcommit2 : Z -> string -> hid_t -> Z
}.

(** [H5Tcreate(class, size)]: a fresh type without members, or the
    invalid identifier. *)
Definition H5Tcreate (lib : H5Library) (class : H5T_class_t) (size : Z) : hid_t :=
  if H5Tcreate_fails lib class size then H5I_INVALID_HID
  else H5T class size false [].

(** [H5Tinsert(parent, name, offset, member)]: the parent with the member
    appended, or [None] for a negative return value. *)
Definition H5Tinsert (lib : H5Library) (parent : hid_t) (name : string)
    (offset : Z) (member : hid_t) : option hid_t :=
  if H5Tinsert_fails lib parent name offset member then None
  else match parent with
       | H5I_INVALID_HID => None
       | H5T class size v members =>
           Some (H5T class size v (members ++ [(name, offset, member)]))
       end.

(** ** [namespace detail] *)

Module detail.

Definition h5t_get_size (hid : hid_t) : result Z :=
  let size := H5Tget_size hid in
  if size =? 0 then ToException Error_getting_size else Ok size.

End detail.

(** ** [DataType] *)

Module DataTypeClass.

Inductive t : Type :=
| Time | Integer | Float | String | BitField | Opaque | Compound
| Reference | Enum | VarLen | Array | Invalid.

#[global] Instance eq_dec : EqDecision t.
Proof. solve_decision. Defined.

End DataTypeClass.

Definition convert_type_class (tclass : H5T_class_t) : DataTypeClass.t :=
  match tclass with
  | H5T_TIME => DataTypeClass.Time
  | H5T_INTEGER => DataTypeClass.Integer
  | H5T_FLOAT => DataTypeClass.Float
  | H5T_STRING => DataTypeClass.String
  | H5T_BITFIELD => DataTypeClass.BitField
  | H5T_OPAQUE => DataTypeClass.Opaque
  | H5T_COMPOUND => DataTypeClass.Compound
  | H5T_REFERENCE => DataTypeClass.Reference
  | H5T_ENUM => DataTypeClass.Enum
  | H5T_VLEN => DataTypeClass.VarLen
  | H5T_ARRAY => DataTypeClass.Array
  | H5T_NO_CLASS | H5T_NCLASSES => DataTypeClass.Invalid
  end.

Definition type_class_string (tclass : DataTypeClass.t) : string :=
  match tclass with
  | DataTypeClass.Time => "Time"
  | DataTypeClass.Integer => "Integer"
  | DataTypeClass.Float => "Float"
  | DataTypeClass.String => "String"
  | DataTypeClass.BitField => "BitField"
  | DataTypeClass.Opaque => "Opaque"
  | DataTypeClass.Compound => "Compound"
  | DataTypeClass.Reference => "Reference"
  | DataTypeClass.Enum => "Enum"
  | DataTypeClass.VarLen => "Varlen"
  | DataTypeClass.Array => "Array"
  | DataTypeClass.Invalid => "(Invalid)"
  end.

(** [std::to_string] of a [size_t]: its decimal digits. *)
Definition to_string (n : Z) : string :=
  NilEmpty.string_of_uint (N.to_uint (Z.to_N n)).

Definition size_mul (a b : Z) : Z := (a * b) mod 2 ^ 64.

(** A [DataType] is its [_hid]. *)
Module DataType.

Definition empty (_hid : hid_t) : bool :=
  match _hid with
  | H5I_INVALID_HID => true
  | _ => false
  end.

Definition getClass (_hid : hid_t) : DataTypeClass.t :=
  convert_type_class (H5Tget_class _hid).

Definition getSize (_hid : hid_t) : result Z := detail.h5t_get_size _hid.

Definition isVariableStr (_hid : hid_t) : result bool :=
  let var_value := H5Tis_variable_str _hid in
  if var_value <? 0 then ToException Unable_to_define_variable
  else Ok (negb (var_value =? 0)).

Definition isFixedLenStr (_hid : hid_t) : result bool :=
  if bool_decide (getClass _hid = DataTypeClass.String)
  then v ← isVariableStr _hid; Ok (negb v)
  else Ok false.

Definition isReference (lib : H5Library) (_hid : hid_t) : bool :=
  H5Tequal _hid (H5T_STD_REF_OBJ lib) >? 0.



(** [DataType::string()]. *)
Definition string (_hid : hid_t) : result String.string :=
  size ← getSize _hid;
  Ok (type_class_string (getClass _hid) +:+ to_string (size_mul size 8)).

End DataType.

(** ** [find_first_atomic_member_size] *)

(** The recursion is on the type of member 0, by matching on the
    descriptor; [find_first_atomic_member_size_unfold] below states the
    same function over [H5Tget_class], [H5Tget_nmembers] and
    [H5Tget_member_type], as the source has it. *)
Fixpoint find_first_atomic_member_size (hid : hid_t) : result Z :=
  match hid with
  | H5T H5T_COMPOUND _ _ members =>
      match members with
      | [] => Throw No_members_defined
      | (_, _, member_type) :: _ => find_first_atomic_member_size member_type
      end
  | H5T H5T_STRING _ _ _ => Ok 1
  | _ => detail.h5t_get_size hid
  end.

(** ** [CompoundType] *)

Module CompoundType.

(** [CompoundType::member_def], with the three fields this file reads
    and writes. *)
Record member_def : Type := {
  name : string;
  base_type : hid_t;
  offset : Z
}.

Record t : Type := {
  members : list member_def;
  _hid : hid_t
}.

(** The first loop of [create]: the members with their offsets set, the
    final [current_size] and the final [max_atomic_size]. *)
Fixpoint first_pass (members : list member_def)
    (current_size max_atomic_size : Z) : result (list member_def * Z * Z) :=
  match members with
  | [] => Ok ([], current_size, max_atomic_size)
  | member :: rest =>
      member_size ← detail.h5t_get_size (base_type member);
      if member_size =? 0 then Throw Cannot_get_size else
      first_atomic_size ← find_first_atomic_member_size (base_type member);
      pad ← _H5_STRUCT_PADDING current_size first_atomic_size;
      let offset := size_add current_size pad in
      let current_size := size_add offset member_size in
      let max_atomic_size := Z.max max_atomic_size first_atomic_size in
      '(rest, current_size, max_atomic_size) ←
        first_pass rest current_size max_atomic_size;
      Ok ({| name := name member; base_type := base_type member;
             offset := offset |} :: rest,
          current_size, max_atomic_size)
  end.

(** What the second loop hands to [H5Tinsert] for a member. *)
Definition inserted (member : member_def) : string * Z * hid_t :=
  (name member, offset member, base_type member).

(** The second loop of [create]. *)
Fixpoint insert_members (lib : H5Library) (_hid : hid_t)
    (members : list member_def) : result hid_t :=
  match members with
  | [] => Ok _hid
  | member :: rest =>
      match H5Tinsert lib _hid (name member) (offset member) (base_type member) with
      | None => ToException Could_not_add_member
      | Some _hid => insert_members lib _hid rest
      end
  end.

(** [create(size)]; a negative identifier from [H5Tcreate] is the invalid
    one. *)
Definition create (lib : H5Library) (this : t) (size : Z) : result t :=
  '(members, size) ←
    (if size =? 0 then
       '(members, current_size, max_atomic_size) ← first_pass (members this) 0 0;
       pad ← _H5_STRUCT_PADDING current_size max_atomic_size;
       Ok (members, size_add current_size pad)
     else Ok (members this, size));
  let _hid := H5Tcreate lib H5T_COMPOUND size in
  if DataType.empty _hid then ToException Could_not_create_compound else
  _hid ← insert_members lib _hid members;
  Ok {| members := members; _hid := _hid |}.

(** The value [H5Tcommit2] returns is dropped. *)
Definition commit (lib : H5Library) (this : t) (object : Object)
    (name : string) : result unit :=
  let _ := H5Tcommit2 lib (getId object) name (_hid this) in
  Ok tt.

End CompoundType.

(** ** [EnumType] *)

Module EnumType.

Record member_def : Type := {
  name : string;
  value : Z
}.

Record t : Type := {
  members : list member_def;
  _hid : hid_t
}.

Definition commit (lib : H5Library) (this : t) (object : Object)
    (name : string) : result unit :=
  let _ := H5Tcommit2 lib (getId object) name (_hid this) in
  Ok tt.

End EnumType.

(** ** [create_and_check_datatype] *)

(** [create_and_check_datatype<T>()], for the descriptor [t] that
    [create_datatype<T>()] returns and for [sizeof(T)]. *)
Definition create_and_check_datatype (lib : H5Library) (t : hid_t)
    (sizeof_T : Z) : result hid_t :=
  if DataType.empty t then Throw Type_not_valid else
  is_var ← DataType.isVariableStr t;
  if is_var : bool then Ok t else
  is_fixed ← (if DataType.isReference lib t then Ok true
              else DataType.isFixedLenStr t);
  if is_fixed : bool then Ok t else
  size ← DataType.getSize t;
  if negb (sizeof_T =? size) then Throw (Size_of_array_type sizeof_T size)
  else Ok t.

(** ** [FixedLenStringArray<N>] *)

(** A [std::string] is its bytes; a [std::array<char, N>] is a list of
    [N] bytes; [datavec] is a list of such arrays. *)
Module FixedLenStringArray.

Definition c_str (s : list byte) : list byte := s ++ [x00].

(** The index of the first null byte; reading past the buffer is
    undefined. *)
Fixpoint strlen (src : list byte) : result Z :=
  match src with
  | [] => Undefined
  | c :: rest =>
      if Byte.eqb c x00 then Ok 0
      else n ← strlen rest; Ok (n + 1)
  end.

Definition memcpy (dst src : list byte) (count : Z) : result (list byte) :=
  if (count <=? Z.of_nat (length dst)) && (count <=? Z.of_nat (length src))
  then Ok (take (Z.to_nat count) src ++ drop (Z.to_nat count) dst)
  else Undefined.

(** [dst_array[pos] = c]. *)
Definition store (dst_array : list byte) (pos : Z) (c : byte) : result (list byte) :=
  if pos <? Z.of_nat (length dst_array)
  then Ok (<[Z.to_nat pos := c]> dst_array)
  else Undefined.

(** [std::copy(first, last, d_first)] over a whole source array. *)
Definition copy (src dst : list byte) : result (list byte) :=
  if (length src <=? length dst)%nat
  then Ok (src ++ drop (length src) dst)
  else Undefined.

(** A value-initialised [std::array<char, N>]. *)
Definition zero_array (N : Z) : list byte := replicate (Z.to_nat N) x00.

(** The body the string overload of [push_back] and the range
    constructor share, given the length of the source. *)
Definition fill (N : Z) (src : list byte) (src_length : Z) : result (list byte) :=
  let length := Z.min (size_sub N 1) src_length in
  dst_array ← memcpy (zero_array N) src length;
  store dst_array length x00.

Definition push_back (N : Z) (datavec : list (list byte)) (src : list byte)
    : result (list (list byte)) :=
  back ← fill N (c_str src) (Z.of_nat (length src));
  Ok (datavec ++ [back]).

Definition push_back_array (N : Z) (datavec : list (list byte))
    (src : list byte) : result (list (list byte)) :=
  back ← copy src (zero_array N);
  Ok (datavec ++ [back]).

Definition getString (N : Z) (datavec : list (list byte)) (i : nat)
    : result (list byte) :=
  match datavec !! i with
  | None => Undefined
  | Some array =>
      n ← strlen array; Ok (take (Z.to_nat n) array)
  end.

(** The loop of the range constructor over [count] resized elements;
    [iter_begin] indexes the strings the pointers range over. *)
Fixpoint fill_range (N : Z) (strings : list (list byte)) (iter_begin : nat)
    (count : nat) : result (list (list byte)) :=
  match count with
  | O => Ok []
  | S count =>
      match strings !! iter_begin with
      | None => Undefined
      | Some s =>
          let src := c_str s in
          n ← strlen src;
          dst_array ← fill N src n;
          rest ← fill_range N strings (S iter_begin) count;
          Ok (dst_array :: rest)
      end
  end.

(** [FixedLenStringArray(iter_begin, iter_end)], the two pointers being
    positions in [strings]. *)
Definition from_range (N : Z) (strings : list (list byte))
    (iter_begin iter_end : Z) : result (list (list byte)) :=
  let count := (iter_end - iter_begin) mod 2 ^ 64 in
  fill_range N strings (Z.to_nat iter_begin) (Z.to_nat count).

(** [FixedLenStringArray(vec)]: the range from [&vec.front()] to
    [&vec.back()]. *)
Definition from_vector (N : Z) (vec : list (list byte)) : result (list (list byte)) :=
  match vec with
  | [] => Undefined
  | _ => from_range N vec 0 (Z.of_nat (length vec) - 1)
  end.

(** [FixedLenStringArray(init_list)]: the range from [begin()] to [end()]. *)
Definition from_initializer_list (N : Z) (init_list : list (list byte))
    : result (list (list byte)) :=
  from_range N init_list 0 (Z.of_nat (length init_list)).

End FixedLenStringArray.

(** ** Layout of a compound descriptor *)

(** The alignment unit [create] uses for a member type. *)
Definition alignment_unit (hid : hid_t) : Z :=
  match find_first_atomic_member_size hid with
  | Ok unit => unit
  | _ => 0
  end.

Definition max_alignment_unit (types : list hid_t) : Z :=
  foldr Z.max 0 (alignment_unit <$> types).

Definition member_offset (m : string * Z * hid_t) : Z := m.1.2.
Definition member_type (m : string * Z * hid_t) : hid_t := m.2.
Definition member_end (m : string * Z * hid_t) : Z :=
  member_offset m + H5Tget_size (member_type m).

Definition offsets_nondecreasing (hid : hid_t) : Prop :=
  forall (i j : nat) mi mj, (i <= j)%nat ->
    H5Tget_members hid !! i = Some mi -> H5Tget_members hid !! j = Some mj ->
    member_offset mi <= member_offset mj.

Definition members_within_size (hid : hid_t) : Prop :=
  forall m, m ∈ H5Tget_members hid -> member_end m <= H5Tget_size hid.

Definition members_disjoint (hid : hid_t) : Prop :=
  forall (i j : nat) mi mj, i <> j ->
    H5Tget_members hid !! i = Some mi -> H5Tget_members hid !! j = Some mj ->
    member_end mi <= member_offset mj \/ member_end mj <= member_offset mi.

Definition size_multiple_of_max_alignment (hid : hid_t) : Prop :=
  H5Tget_size hid mod max_alignment_unit (member_type <$> H5Tget_members hid) = 0.

Record layout_invariants (hid : hid_t) : Prop := {
  layout_nondecreasing : offsets_nondecreasing hid;
  layout_within : members_within_size hid;
  layout_disjoint : members_disjoint hid;
  layout_aligned : size_multiple_of_max_alignment hid
}.

(** The end of the last member when the first pass is run on unbounded
    integers, and the padded size that follows from it. *)
Fixpoint natural_end (types : list hid_t) (current_size : Z) : Z :=
  match types with
  | [] => current_size
  | type :: rest =>
      natural_end rest
        (current_size + (- current_size) mod alignment_unit type
         + H5Tget_size type)
  end.

Definition natural_size (types : list hid_t) : Z :=
  let current_size := natural_end types 0 in
  current_size + (- current_size) mod max_alignment_unit types.

(** The sizes the library reports are [size_t] values. *)
Definition sizes_in_range (types : list hid_t) : Prop :=
  Forall (fun type => size_t_range (H5Tget_size type) /\
                      size_t_range (alignment_unit type)) types.

(** The layout of the member types does not exceed [SIZE_MAX]. *)
Definition representable (types : list hid_t) : Prop :=
  sizes_in_range types /\ natural_size types <= SIZE_MAX.

(** Members placed one after another between [current_size] and
    [last]. *)
Fixpoint consecutive (current_size : Z) (ms : list (string * Z * hid_t))
    (last : Z) : Prop :=
  match ms with
  | [] => current_size <= last
  | m :: rest =>
      current_size <= member_offset m /\ member_offset m <= member_end m /\
      consecutive (member_end m) rest last
  end.

(** The descriptor reached by following first members down to a type
    that is not a compound. *)
Fixpoint first_atomic_member (hid : hid_t) : option hid_t :=
  match hid with
  | H5T H5T_COMPOUND _ _ members =>
      match members with
      | [] => None
      | (_, _, member_type) :: _ => first_atomic_member member_type
      end
  | _ => Some hid
  end.

(** The offsets of the first pass on unbounded integers: every member
    has a positive alignment unit and starts at the end of the one before
    it, rounded up to that unit. *)
Fixpoint placed (current_size : Z) (ms : list (string * Z * hid_t))
    (last : Z) : Prop :=
  match ms with
  | [] => last = current_size
  | m :: rest =>
      1 <= alignment_unit (member_type m) /\
      member_offset m
        = current_size + (- current_size) mod alignment_unit (member_type m) /\
      placed (member_end m) rest last
  end.

(** The bytes the members take together, padding left out. *)
Definition members_size (ms : list (string * Z * hid_t)) : Z :=
  foldr Z.add 0 ((fun m => H5Tget_size (member_type m)) <$> ms).

(** A member type the first pass accepts. *)
Definition member_ok (type : hid_t) : Prop :=
  H5Tget_size type <> 0 /\ exists unit, find_first_atomic_member_size type = Ok unit.

(** ** Contents of a [FixedLenStringArray<N>] *)

(** The number of bytes of a string before its first null byte. *)
Fixpoint first_null (s : list byte) : nat :=
  match s with
  | [] => 0
  | c :: rest => if Byte.eqb c x00 then 0 else S (first_null rest)
  end.

(** An array of [N] bytes holding the first [n] bytes of [s], then null
    bytes. *)
Definition padded (N : Z) (s : list byte) (n : nat) : list byte :=
  take n s ++ replicate (Z.to_nat N - n) x00.

(** The number of bytes the range constructor copies from [s]. *)
Definition copied (N : Z) (s : list byte) : nat :=
  Z.to_nat (Z.min (N - 1) (Z.of_nat (first_null s))).

(** [push_back] called for each string in turn. *)
Definition push_back_all (N : Z) (datavec : list (list byte))
    (strings : list (list byte)) : result (list (list byte)) :=
  foldl (fun r s => datavec ← r; FixedLenStringArray.push_back N datavec s)
        (Ok datavec) strings.

(** ** Sample descriptors and libraries *)

Definition H5T_NATIVE_CHAR : hid_t := H5T H5T_INTEGER 1 false [].
Definition H5T_NATIVE_INT : hid_t := H5T H5T_INTEGER 4 false [].
Definition H5T_NATIVE_DOUBLE : hid_t := H5T H5T_FLOAT 8 false [].

(** A library that refuses a type of size zero and nothing else. *)
Definition accepting_library : H5Library := {|
  H5T_STD_REF_OBJ := H5T H5T_REFERENCE 8 false [];
  H5Tcreate_fails := fun _ size => size =? 0;
  H5Tinsert_fails := fun _ _ _ _ => false;
  H5Tcommit2 := fun _ _ _ => 0
|}.

(** The same library over a storage object that refuses every commit. *)
Definition read_only_library : H5Library := {|
  H5T_STD_REF_OBJ := H5T H5T_REFERENCE 8 false [];
  H5Tcreate_fails := fun _ size => size =? 0;
  H5Tinsert_fails := fun _ _ _ _ => false;
  H5Tcommit2 := fun _ _ _ => -1
|}.

Definition new_compound (members : list CompoundType.member_def) : CompoundType.t :=
  {| CompoundType.members := members; CompoundType._hid := H5I_INVALID_HID |}.

Definition member (name : string) (base_type : hid_t) (offset : Z)
    : CompoundType.member_def :=
  {| CompoundType.name := name; CompoundType.base_type := base_type;
     CompoundType.offset := offset |}.

(** * Properties *)

(** ** Padding *)

Lemma size_add_small a b : 0 <= a + b <= SIZE_MAX -> size_add a b = a + b.
Proof. unfold size_add, SIZE_MAX. intros H. apply Z.mod_small. lia. Qed.

Lemma size_sub_small a b : 0 <= b <= a -> a <= SIZE_MAX -> size_sub a b = a - b.
Proof. unfold size_sub, SIZE_MAX. intros H1 H2. apply Z.mod_small. lia. Qed.

(** The macro, for a non-zero unit, is the remainder of [- current_size]. *)
Lemma padding_opp_mod c a :
  size_t_range c -> 1 <= a <= SIZE_MAX ->
  _H5_STRUCT_PADDING c a = Ok ((- c) mod a).
Proof.
  unfold size_t_range. intros Hc Ha. unfold _H5_STRUCT_PADDING.
  destruct (Z.eqb_spec a 0) as [->|_]; [lia|].
  assert (Hm : 0 <= (c - a) mod a < a) by (apply Z.mod_pos_bound; lia).
  destruct (Z.geb_spec a c) as [Hge|Hlt]; f_equal.
  - rewrite size_sub_small by lia.
    replace (a - c) with (- c + 1 * a) by ring. apply Z.mod_add. lia.
  - rewrite (size_sub_small c a) by lia.
    rewrite size_sub_small by lia.
    replace ((c - a) mod a) with (c mod a).
    2:{ replace (c - a) with (c + (-1) * a) by ring. symmetry. apply Z.mod_add. lia. }
    pose proof (Z.div_mod c a ltac:(lia)) as Hdm.
    replace (- c) with (a - c mod a + (- (c / a) - 1) * a) by lia.
    symmetry. apply Z.mod_add. lia.
Qed.

(** C3: for a unit of at least one, the value of the two-branch padding
    macro is the one pad below the unit that makes [current_size + pad]
    a multiple of the unit, so [current_size + pad] is [current_size]
    rounded up to the next multiple of the unit. *)
Theorem struct_padding_rounds_up (current_size align_unit : Z) :
  size_t_range current_size -> 1 <= align_unit <= SIZE_MAX ->
  exists pad,
    _H5_STRUCT_PADDING current_size align_unit = Ok pad /\
    0 <= pad < align_unit /\
    (current_size + pad) mod align_unit = 0 /\
    (forall p, 0 <= p < align_unit ->
               (current_size + p) mod align_unit = 0 -> p = pad) /\
    (forall m, current_size <= m -> m mod align_unit = 0 ->
               current_size + pad <= m).
Proof.
  intros Hc Ha. exists ((- current_size) mod align_unit).
  split; [by apply padding_opp_mod|].
  assert (Hpos : 0 < align_unit) by lia.
  pose proof (Z.mod_pos_bound (- current_size) align_unit Hpos) as Hb.
  assert (Hz : (current_size + (- current_size) mod align_unit) mod align_unit = 0).
  { rewrite Zplus_mod_idemp_r. replace (current_size + - current_size) with 0 by ring.
    apply Z.mod_0_l. lia. }
  split; [done|]. split; [done|]. split.
  - intros p Hp Hpz.
    apply Z.mod_divide in Hz; [|lia]. apply Z.mod_divide in Hpz; [|lia].
    destruct Hz as [k1 Hk1], Hpz as [k2 Hk2].
    assert (Hd : (k2 - k1) * align_unit = p - (- current_size) mod align_unit) by lia.
    assert (k2 - k1 = 0) by nia. lia.
  - intros m Hm Hmz.
    apply Z.mod_divide in Hz; [|lia]. apply Z.mod_divide in Hmz; [|lia].
    destruct Hz as [k1 Hk1], Hmz as [k2 Hk2].
    assert (Hd : (k1 - k2 - 1) * align_unit < 0) by lia.
    assert (k1 - k2 - 1 < 0) by nia. nia.
Qed.

Lemma struct_padding_rounds_up_witness :
  exists pad,
    _H5_STRUCT_PADDING 5 4 = Ok pad /\
    0 <= pad < 4 /\
    (5 + pad) mod 4 = 0 /\
    (forall p, 0 <= p < 4 -> (5 + p) mod 4 = 0 -> p = pad) /\
    (forall m, 5 <= m -> m mod 4 = 0 -> 5 + pad <= m).
Proof.
  apply (struct_padding_rounds_up 5 4); unfold size_t_range, SIZE_MAX; lia.
Defined.

(** ** The alignment unit *)

(** The function in the shape of the source, over the library's
    accessors. *)
Lemma find_first_atomic_member_size_unfold hid :
  find_first_atomic_member_size hid =
    if bool_decide (H5Tget_class hid = H5T_COMPOUND) then
      let number_of_members := H5Tget_nmembers hid in
      if number_of_members =? -1 then Throw Cannot_get_members
      else if number_of_members =? 0 then Throw No_members_defined
      else find_first_atomic_member_size (H5Tget_member_type hid 0)
    else if bool_decide (H5Tget_class hid = H5T_STRING) then Ok 1
    else detail.h5t_get_size hid.
Proof.
  destruct hid as [|class size v members]; [done|].
  destruct class; try done.
  destruct members as [|[[name offset] type] rest]; [done|].
  cbn [H5Tget_class H5Tget_nmembers]. rewrite bool_decide_eq_true_2 by done.
  cbv zeta. rewrite length_cons.
  destruct (Z.eqb_spec (Z.of_nat (S (length rest))) (-1)) as [?|_]; [lia|].
  destruct (Z.eqb_spec (Z.of_nat (S (length rest))) 0) as [?|_]; [lia|].
  done.
Qed.

Lemma first_atomic_member_not_compound hid leaf :
  first_atomic_member hid = Some leaf ->
  H5Tget_class leaf <> H5T_COMPOUND /\
  find_first_atomic_member_size hid = find_first_atomic_member_size leaf.
Proof.
  revert leaf.
  induction hid as [|class size v members IH] using hid_t_members_ind.
  - intros leaf [= <-]. done.
  - intros leaf Hleaf.
    destruct class; try (injection Hleaf as <-; done).
    destruct members as [|[[name offset] type] rest]; [done|].
    apply Forall_cons_1 in IH as [IH _]. simpl in *. by apply IH.
Qed.

(** C2: the alignment unit of a compound is that of its first member,
    that of a string is 1, that of any other descriptor is its byte
    size; following first members, the value is decided at the first
    descriptor that is not a compound. *)
Theorem find_first_atomic_member_size_alignment_unit (hid : hid_t) :
  (forall name offset first rest,
      H5Tget_class hid = H5T_COMPOUND ->
      H5Tget_members hid = (name, offset, first) :: rest ->
      find_first_atomic_member_size hid = find_first_atomic_member_size first) /\
  (H5Tget_class hid = H5T_STRING -> find_first_atomic_member_size hid = Ok 1) /\
  (H5Tget_class hid <> H5T_COMPOUND -> H5Tget_class hid <> H5T_STRING ->
   H5Tget_size hid <> 0 ->
   find_first_atomic_member_size hid = Ok (H5Tget_size hid)) /\
  (forall leaf, first_atomic_member hid = Some leaf ->
     H5Tget_class leaf <> H5T_COMPOUND /\
     find_first_atomic_member_size hid =
       if bool_decide (H5Tget_class leaf = H5T_STRING) then Ok 1
       else detail.h5t_get_size leaf).
Proof.
  split; [|split; [|split]].
  - intros name offset first rest Hclass Hmembers.
    rewrite find_first_atomic_member_size_unfold.
    rewrite bool_decide_eq_true_2 by done.
    destruct hid as [|class size v members]; [done|].
    simpl in Hclass, Hmembers. subst class members. done.
  - intros Hclass. rewrite find_first_atomic_member_size_unfold.
    rewrite bool_decide_eq_false_2 by congruence.
    by rewrite bool_decide_eq_true_2.
  - intros Hc Hs Hsize. rewrite find_first_atomic_member_size_unfold.
    rewrite !bool_decide_eq_false_2 by done.
    unfold detail.h5t_get_size. by destruct (Z.eqb_spec (H5Tget_size hid) 0).
  - intros leaf [Hc ->]%first_atomic_member_not_compound.
    split; [done|].
    rewrite find_first_atomic_member_size_unfold.
    by rewrite bool_decide_eq_false_2.
Qed.

Lemma find_first_atomic_member_size_alignment_unit_witness :
  let float64 := H5T H5T_FLOAT 8 false [] in
  let int32 := H5T H5T_INTEGER 4 false [] in
  let inner :=
    H5T H5T_COMPOUND 16 false [("x"%string, 0, float64); ("n"%string, 8, int32)] in
  let outer :=
    H5T H5T_COMPOUND 24 false [("in"%string, 0, inner); ("k"%string, 16, int32)] in
  find_first_atomic_member_size outer = find_first_atomic_member_size inner /\
  find_first_atomic_member_size (H5T H5T_STRING 10 false []) = Ok 1 /\
  find_first_atomic_member_size float64 = Ok 8 /\
  find_first_atomic_member_size outer = Ok 8.
Proof.
  intros float64 int32 inner outer.
  destruct (find_first_atomic_member_size_alignment_unit outer)
    as (Hfirst & _ & _ & Hleaf).
  destruct (find_first_atomic_member_size_alignment_unit
              (H5T H5T_STRING 10 false [])) as (_ & Hstring & _).
  destruct (find_first_atomic_member_size_alignment_unit float64)
    as (_ & _ & Hsize & _).
  split; [|split; [|split]].
  - apply (Hfirst "in"%string 0 inner [("k"%string, 16, int32)]); reflexivity.
  - apply Hstring. reflexivity.
  - apply Hsize; simpl; congruence.
  - apply (Hleaf float64). reflexivity.
Defined.

(** ** Monadic plumbing *)

Lemma bind_Ok {A B : Type} (r : result A) (k : A -> result B) (b : B) :
  r ≫= k = Ok b -> exists a, r = Ok a /\ k a = Ok b.
Proof. destruct r as [a| |]; [|done..]. intros H. by exists a. Qed.

Lemma h5t_get_size_Ok hid size :
  detail.h5t_get_size hid = Ok size -> size = H5Tget_size hid /\ size <> 0.
Proof.
  unfold detail.h5t_get_size.
  destruct (Z.eqb_spec (H5Tget_size hid) 0); [done|]. by intros [= <-].
Qed.

Lemma find_first_atomic_member_size_Ok hid unit :
  find_first_atomic_member_size hid = Ok unit -> alignment_unit hid = unit.
Proof. unfold alignment_unit. by intros ->. Qed.

Lemma struct_padding_Ok current_size unit pad :
  _H5_STRUCT_PADDING current_size unit = Ok pad -> unit <> 0.
Proof.
  unfold _H5_STRUCT_PADDING. by destruct (Z.eqb_spec unit 0).
Qed.

(** ** Consecutive members *)

Lemma consecutive_le current_size ms last :
  consecutive current_size ms last -> current_size <= last.
Proof.
  revert current_size. induction ms as [|m rest IH]; intros c; simpl; [done|].
  intros (H1 & H2 & H3). apply IH in H3. lia.
Qed.

Lemma consecutive_weaken current_size ms last last' :
  consecutive current_size ms last -> last <= last' ->
  consecutive current_size ms last'.
Proof.
  revert current_size. induction ms as [|m rest IH]; intros c; simpl; [lia|].
  intros (H1 & H2 & H3) Hle. eauto.
Qed.

Lemma consecutive_elem_of current_size ms last m :
  consecutive current_size ms last -> m ∈ ms ->
  current_size <= member_offset m <= member_end m /\ member_end m <= last.
Proof.
  revert current_size. induction ms as [|m' rest IH]; intros c Hc Hin.
  - by apply elem_of_nil in Hin.
  - destruct Hc as (H1 & H2 & H3). apply elem_of_cons in Hin as [->|Hin].
    + split; [done|]. by apply consecutive_le in H3.
    + destruct (IH _ H3 Hin). lia.
Qed.

Lemma consecutive_lookup_lt current_size ms last (i j : nat) mi mj :
  consecutive current_size ms last -> (i < j)%nat ->
  ms !! i = Some mi -> ms !! j = Some mj ->
  member_end mi <= member_offset mj.
Proof.
  revert current_size i j.
  induction ms as [|m rest IH]; intros c i j Hc Hij Hi Hj; [done|].
  destruct Hc as (H1 & H2 & H3).
  destruct j as [|j]; [lia|]. simpl in Hj.
  destruct i as [|i]; simpl in Hi.
  - injection Hi as ->.
    apply list_elem_of_lookup_2 in Hj.
    destruct (consecutive_elem_of _ _ _ _ H3 Hj). lia.
  - eapply (IH _ i j); [done|lia|done..].
Qed.

(** ** The first pass of [CompoundType::create] *)

(** One iteration that succeeds. *)
Lemma first_pass_cons member rest current_size max_atomic_size r :
  CompoundType.first_pass (member :: rest) current_size max_atomic_size = Ok r ->
  let type := CompoundType.base_type member in
  exists pad rest' current_size' max_atomic_size',
    H5Tget_size type <> 0 /\ alignment_unit type <> 0 /\
    _H5_STRUCT_PADDING current_size (alignment_unit type) = Ok pad /\
    CompoundType.first_pass rest
      (size_add (size_add current_size pad) (H5Tget_size type))
      (Z.max max_atomic_size (alignment_unit type))
      = Ok (rest', current_size', max_atomic_size') /\
    r = ({| CompoundType.name := CompoundType.name member;
            CompoundType.base_type := type;
            CompoundType.offset := size_add current_size pad |} :: rest',
         current_size', max_atomic_size').
Proof.
  intros H type. simpl in H.
  apply bind_Ok in H as (size & Hsize & H).
  apply h5t_get_size_Ok in Hsize as [-> Hsize].
  destruct (Z.eqb_spec (H5Tget_size (CompoundType.base_type member)) 0); [done|].
  apply bind_Ok in H as (unit & Hunit & H).
  apply find_first_atomic_member_size_Ok in Hunit as <-.
  apply bind_Ok in H as (pad & Hpad & H).
  apply bind_Ok in H as ([[rest' current_size'] max_atomic_size'] & Hrest & H).
  injection H as <-.
  exists pad, rest', current_size', max_atomic_size'.
  repeat split; try done. by eapply struct_padding_Ok.
Qed.

Lemma natural_end_ge members current_size max_atomic_size r :
  CompoundType.first_pass members current_size max_atomic_size = Ok r ->
  sizes_in_range (CompoundType.base_type <$> members) ->
  forall c, c <= natural_end (CompoundType.base_type <$> members) c.
Proof.
  revert current_size max_atomic_size r.
  induction members as [|member rest IH]; intros cs ma r Hpass Hrange c; [done|].
  apply first_pass_cons in Hpass
    as (pad & rest' & cs' & ma' & Hsize & Hunit & _ & Hrest & _).
  apply Forall_cons in Hrange as [[Hs Hu] Hrange].
  unfold size_t_range in *. simpl.
  etrans; [|by eapply IH].
  pose proof (Z.mod_pos_bound (- c)
                (alignment_unit (CompoundType.base_type member))). lia.
Qed.

Lemma first_pass_natural members : forall current_size max_atomic_size
    members' current_size' max_atomic_size',
  let types := CompoundType.base_type <$> members in
  size_t_range current_size -> 0 <= max_atomic_size ->
  sizes_in_range types ->
  natural_end types current_size <= SIZE_MAX ->
  CompoundType.first_pass members current_size max_atomic_size
    = Ok (members', current_size', max_atomic_size') ->
  current_size' = natural_end types current_size /\
  max_atomic_size' = Z.max max_atomic_size (max_alignment_unit types) /\
  consecutive current_size (CompoundType.inserted <$> members') current_size' /\
  CompoundType.base_type <$> members' = types /\
  (members <> [] -> 1 <= max_alignment_unit types).
Proof.
  induction members as [|member rest IH];
    intros cs ma members' cs' ma' types Hcs Hma Hrange Hfit Hpass.
  - injection Hpass as <- <- <-. subst types. simpl.
    unfold max_alignment_unit. simpl. repeat split; try done; lia.
  - pose proof (natural_end_ge _ _ _ _ Hpass Hrange) as Hge.
    apply first_pass_cons in Hpass
      as (pad & rest' & cs1 & ma1 & Hsize & Hunit & Hpad & Hrest & Heq).
    injection Heq as -> -> ->.
    pose proof (natural_end_ge _ _ _ _ Hrest) as Hge_rest.
    subst types. rewrite fmap_cons in *.
    apply Forall_cons in Hrange as [[Hs Hu] Hrange].
    specialize (Hge_rest Hrange).
    remember (CompoundType.base_type member) as type eqn:Htype.
    unfold size_t_range in Hs, Hu, Hcs.
    rewrite padding_opp_mod in Hpad by (unfold size_t_range; lia).
    injection Hpad as <-.
    pose proof (Z.mod_pos_bound (- cs) (alignment_unit type) ltac:(lia)) as Hmod.
    cbn [natural_end] in Hfit |- *.
    assert (Hmax : max_alignment_unit (type :: (CompoundType.base_type <$> rest))
                   = Z.max (alignment_unit type)
                       (max_alignment_unit (CompoundType.base_type <$> rest)))
      by done.
    rewrite Hmax. clear Hmax.
    remember ((- cs) mod alignment_unit type) as pad eqn:Hpad.
    pose proof (Hge_rest (cs + pad + H5Tget_size type)).
    rewrite (size_add_small cs) in * by lia.
    rewrite size_add_small in Hrest by lia.
    apply IH in Hrest as (-> & -> & Hcons & Htypes & _);
      [|unfold size_t_range; lia|lia|done..].
    rewrite !fmap_cons.
    cbn [consecutive].
    unfold member_end, member_offset, member_type.
    cbn [CompoundType.inserted CompoundType.name CompoundType.offset
         CompoundType.base_type fst snd].
    split; [done|]. split; [lia|]. split; [|split].
    + split; [lia|]. split; [lia|]. done.
    + by rewrite Htypes.
    + intros _. lia.
Qed.

Lemma max_alignment_unit_range types :
  sizes_in_range types -> size_t_range (max_alignment_unit types).
Proof.
  unfold max_alignment_unit, size_t_range.
  induction 1 as [|type rest [_ Hu] _ IH]; [unfold SIZE_MAX; simpl; lia|].
  rewrite fmap_cons. cbn [foldr]. unfold size_t_range in Hu. lia.
Qed.

(** ** The second pass and [create] *)

Lemma insert_members_Ok lib class size v inserted_before members _hid :
  CompoundType.insert_members lib (H5T class size v inserted_before) members
    = Ok _hid ->
  _hid = H5T class size v (inserted_before ++ (CompoundType.inserted <$> members)).
Proof.
  revert inserted_before.
  induction members as [|member rest IH]; intros before H; simpl in H.
  - injection H as <-. by rewrite app_nil_r.
  - unfold H5Tinsert in H. destruct (H5Tinsert_fails _ _ _ _ _); [done|].
    apply IH in H as ->. by rewrite <- app_assoc.
Qed.

Lemma H5Tcreate_not_empty lib class size :
  DataType.empty (H5Tcreate lib class size) = false ->
  H5Tcreate lib class size = H5T class size false [].
Proof. unfold H5Tcreate. by destruct (H5Tcreate_fails _ _ _). Qed.

(** What a successful [create] returns: the members it was given or
    computed, inserted in order into a fresh compound of the size it was
    given or computed. *)
Lemma create_Ok lib this size this' :
  CompoundType.create lib this size = Ok this' ->
  exists members' size',
    (if size =? 0
     then exists current_size max_atomic_size pad,
         CompoundType.first_pass (CompoundType.members this) 0 0
           = Ok (members', current_size, max_atomic_size) /\
         _H5_STRUCT_PADDING current_size max_atomic_size = Ok pad /\
         size' = size_add current_size pad
     else members' = CompoundType.members this /\ size' = size) /\
    this' = {| CompoundType.members := members';
               CompoundType._hid :=
                 H5T H5T_COMPOUND size' false (CompoundType.inserted <$> members') |}.
Proof.
  unfold CompoundType.create. intros H.
  apply bind_Ok in H as ([members' size'] & Hfirst & H).
  exists members', size'.
  destruct (DataType.empty _) eqn:Hempty; [done|].
  apply H5Tcreate_not_empty in Hempty. rewrite Hempty in H.
  apply bind_Ok in H as (_hid & Hinsert & H). injection H as <-.
  apply insert_members_Ok in Hinsert as ->. split; [|done].
  destruct (size =? 0).
  - apply bind_Ok in Hfirst as ([[ms cs] ma] & Hpass & Hfirst).
    apply bind_Ok in Hfirst as (pad & Hpad & Hfirst).
    injection Hfirst as -> <-. by exists cs, ma, pad.
  - by injection Hfirst as -> ->.
Qed.

(** C1: after [create] with size 0 on a non-empty member list whose
    layout is representable in [size_t], the compound that results has
    non-decreasing member offsets, every member ends within the total
    size, no two members overlap, and the total size is a multiple of
    the largest alignment unit of the members. *)
Theorem create_layout_invariants (lib : H5Library)
    (this this' : CompoundType.t) :
  CompoundType.members this <> [] ->
  representable (CompoundType.base_type <$> CompoundType.members this) ->
  CompoundType.create lib this 0 = Ok this' ->
  layout_invariants (CompoundType._hid this').
Proof.
  intros Hne [Hrange Hfit] Hcreate.
  apply create_Ok in Hcreate as (members' & size' & Hsize & ->).
  cbn [Z.eqb] in Hsize. destruct Hsize as (cs & ma & pad & Hpass & Hpad & ->).
  pose proof (natural_end_ge _ _ _ _ Hpass Hrange 0) as Hge.
  assert (Hunit : 1 <= max_alignment_unit
                        (CompoundType.base_type <$> CompoundType.members this)).
  { destruct (CompoundType.members this) as [|member rest] eqn:E; [done|].
    apply first_pass_cons in Hpass as (_ & _ & _ & _ & _ & Hu & _).
    rewrite fmap_cons in *.
    apply Forall_cons in Hrange as [[_ Hu'] _]. unfold size_t_range in Hu'.
    unfold max_alignment_unit. rewrite fmap_cons. cbn [foldr]. lia. }
  remember (CompoundType.base_type <$> CompoundType.members this) as types
    eqn:Htypes_eq.
  unfold natural_size in Hfit. cbv zeta in Hfit.
  pose proof (Z.mod_pos_bound (- natural_end types 0) (max_alignment_unit types)
                ltac:(lia)) as Hmod.
  remember ((- natural_end types 0) mod max_alignment_unit types) as pad'
    eqn:Hpad'.
  apply first_pass_natural in Hpass as (-> & -> & Hcons & Htypes & _);
    [|unfold size_t_range, SIZE_MAX; lia|lia|by subst types|subst types; lia].
  pose proof (max_alignment_unit_range _ Hrange) as Hmax.
  rewrite <- Htypes_eq in Hpad, Hcons, Htypes |- *.
  rewrite Z.max_r in Hpad by lia.
  unfold size_t_range in Hmax.
  rewrite padding_opp_mod in Hpad by (unfold size_t_range; lia).
  rewrite <- Hpad' in Hpad. injection Hpad as <-.
  rewrite size_add_small by lia.
  cbn [CompoundType._hid].
  apply (consecutive_weaken _ _ _ (natural_end types 0 + pad')) in Hcons; [|lia].
  split.
  - intros i j mi mj Hij Hi Hj. cbn [H5Tget_members] in Hi, Hj.
    destruct (decide (i = j)) as [->|Hne'].
    + rewrite Hi in Hj. injection Hj as ->. lia.
    + pose proof (consecutive_lookup_lt _ _ _ i j _ _ Hcons ltac:(lia) Hi Hj).
      apply list_elem_of_lookup_2 in Hi.
      pose proof (consecutive_elem_of _ _ _ _ Hcons Hi). lia.
  - intros m Hm. cbn [H5Tget_members H5Tget_size] in *.
    by destruct (consecutive_elem_of _ _ _ _ Hcons Hm).
  - intros i j mi mj Hij Hi Hj. cbn [H5Tget_members] in Hi, Hj.
    destruct (Nat.lt_total i j) as [Hlt|[?|Hlt]]; [|done|].
    + left. by eapply consecutive_lookup_lt.
    + right. by eapply consecutive_lookup_lt.
  - unfold size_multiple_of_max_alignment. cbn [H5Tget_members H5Tget_size].
    rewrite <- list_fmap_compose.
    replace (member_type ∘ CompoundType.inserted) with CompoundType.base_type by done.
    rewrite Htypes, Hpad'.
    rewrite Zplus_mod_idemp_r.
    replace (natural_end types 0 + - natural_end types 0) with 0 by ring.
    apply Z.mod_0_l. lia.
Qed.

Lemma create_layout_invariants_witness :
  layout_invariants
    (H5T H5T_COMPOUND 8 false
       [("c"%string, 0, H5T_NATIVE_CHAR); ("n"%string, 4, H5T_NATIVE_INT)]).
Proof.
  apply (create_layout_invariants accepting_library
           (new_compound [member "c" H5T_NATIVE_CHAR 0; member "n" H5T_NATIVE_INT 0])
           {| CompoundType.members :=
                [member "c" H5T_NATIVE_CHAR 0; member "n" H5T_NATIVE_INT 4];
              CompoundType._hid :=
                H5T H5T_COMPOUND 8 false
                  [("c"%string, 0, H5T_NATIVE_CHAR); ("n"%string, 4, H5T_NATIVE_INT)] |}).
  - discriminate.
  - split.
    + repeat constructor; vm_compute; congruence.
    + vm_compute. congruence.
  - reflexivity.
Defined.

(** The layouts the specification lists: two 4-byte integers, and a
    1-byte field before a 4-byte field. *)
Example create_int_int :
  CompoundType.create accepting_library
    (new_compound [member "a" H5T_NATIVE_INT 0; member "b" H5T_NATIVE_INT 0]) 0
  = Ok {| CompoundType.members :=
            [member "a" H5T_NATIVE_INT 0; member "b" H5T_NATIVE_INT 4];
          CompoundType._hid :=
            H5T H5T_COMPOUND 8 false
              [("a"%string, 0, H5T_NATIVE_INT); ("b"%string, 4, H5T_NATIVE_INT)] |}.
Proof. reflexivity. Qed.

Example create_char_int :
  CompoundType.create accepting_library
    (new_compound [member "c" H5T_NATIVE_CHAR 0; member "n" H5T_NATIVE_INT 0]) 0
  = Ok {| CompoundType.members :=
            [member "c" H5T_NATIVE_CHAR 0; member "n" H5T_NATIVE_INT 4];
          CompoundType._hid :=
            H5T H5T_COMPOUND 8 false
              [("c"%string, 0, H5T_NATIVE_CHAR); ("n"%string, 4, H5T_NATIVE_INT)] |}.
Proof. reflexivity. Qed.

(** ** [create] with an explicit size *)

(** With a non-zero size the first pass is skipped: a packed pair keeps
    the offsets it was declared with, which are not those of the first
    pass. *)
Lemma create_explicit_size_keeps_declared_offsets :
  let this :=
    new_compound [member "c" H5T_NATIVE_CHAR 0; member "n" H5T_NATIVE_INT 1] in
  exists explicit implicit,
    CompoundType.create accepting_library this 5 = Ok explicit /\
    CompoundType.create accepting_library this 0 = Ok implicit /\
    CompoundType.members explicit <> CompoundType.members implicit /\
    CompoundType.offset <$> CompoundType.members explicit = [0; 1] /\
    CompoundType.offset <$> CompoundType.members implicit = [0; 4] /\
    H5Tget_member_offset (CompoundType._hid explicit) 1 = 1 /\
    H5Tget_member_offset (CompoundType._hid implicit) 1 = 4.
Proof.
  intros this. eexists _, _.
  split; [reflexivity|]. split; [reflexivity|]. split; [discriminate|]. done.
Qed.

(** C4, amended: with a non-zero size, [create] uses that size as the
    total size of the compound, skips the first pass, and inserts every
    member at the offset its definition already carries. *)
Theorem create_explicit_size (lib : H5Library) (this this' : CompoundType.t)
    (size : Z) :
  size <> 0 ->
  CompoundType.create lib this size = Ok this' ->
  H5Tget_size (CompoundType._hid this') = size /\
  CompoundType.members this' = CompoundType.members this /\
  H5Tget_members (CompoundType._hid this')
    = CompoundType.inserted <$> CompoundType.members this.
Proof.
  intros Hsize Hcreate.
  apply create_Ok in Hcreate as (members' & size' & Hexplicit & ->).
  destruct (Z.eqb_spec size 0); [done|].
  by destruct Hexplicit as [-> ->].
Qed.

Lemma create_explicit_size_witness :
  let complex :=
    {| CompoundType.members :=
         [member "r" H5T_NATIVE_DOUBLE 0; member "i" H5T_NATIVE_DOUBLE 8];
       CompoundType._hid :=
         H5T H5T_COMPOUND 16 false
           [("r"%string, 0, H5T_NATIVE_DOUBLE); ("i"%string, 8, H5T_NATIVE_DOUBLE)] |} in
  H5Tget_size (CompoundType._hid complex) = 16 /\
  CompoundType.members complex
    = [member "r" H5T_NATIVE_DOUBLE 0; member "i" H5T_NATIVE_DOUBLE 8] /\
  H5Tget_members (CompoundType._hid complex)
    = [("r"%string, 0, H5T_NATIVE_DOUBLE); ("i"%string, 8, H5T_NATIVE_DOUBLE)].
Proof.
  intros complex.
  apply (create_explicit_size accepting_library
           (new_compound [member "r" H5T_NATIVE_DOUBLE 0; member "i" H5T_NATIVE_DOUBLE 8])
           complex 16).
  - discriminate.
  - reflexivity.
Defined.

(** ** [create] on an empty member list *)

(** With an explicit size and a library that accepts it, an empty member
    list is not an error. *)
Lemma create_empty_explicit_size_succeeds :
  CompoundType.create accepting_library (new_compound []) 16
    = Ok {| CompoundType.members := [];
            CompoundType._hid := H5T H5T_COMPOUND 16 false [] |} /\
  ~ throws (CompoundType.create accepting_library (new_compound []) 16).
Proof. split; [reflexivity|]. intros [e He]. discriminate He. Qed.

(** With size 0 the final padding is taken modulo [max_atomic_size = 0]. *)
Lemma create_empty_implicit_size_undefined (lib : H5Library) this :
  CompoundType.members this = [] ->
  CompoundType.create lib this 0 = Undefined.
Proof. unfold CompoundType.create. by intros ->. Qed.

(** C5, amended: [create] does not look at the length of the member
    list; on an empty list with a non-zero size it fails exactly when the
    library refuses to create the compound, and otherwise returns a
    compound of that size without members. *)
Theorem create_empty_explicit_size (lib : H5Library) (this : CompoundType.t)
    (size : Z) :
  CompoundType.members this = [] -> size <> 0 ->
  CompoundType.create lib this size =
    if H5Tcreate_fails lib H5T_COMPOUND size
    then Throw Could_not_create_compound
    else Ok {| CompoundType.members := [];
               CompoundType._hid := H5T H5T_COMPOUND size false [] |}.
Proof.
  intros Hmembers Hsize. unfold CompoundType.create. rewrite Hmembers.
  destruct (Z.eqb_spec size 0); [done|]. simpl. unfold H5Tcreate.
  by destruct (H5Tcreate_fails lib H5T_COMPOUND size).
Qed.

Lemma create_empty_explicit_size_witness :
  CompoundType.create read_only_library (new_compound []) 8
    = Ok {| CompoundType.members := [];
            CompoundType._hid := H5T H5T_COMPOUND 8 false [] |}.
Proof.
  apply (create_empty_explicit_size read_only_library (new_compound []) 8).
  - reflexivity.
  - discriminate.
Defined.

(** ** [commit] *)

(** Both [commit] members return normally whatever [H5Tcommit2]
    returns. *)
Lemma commit_returns (lib : H5Library) compound enum object name :
  CompoundType.commit lib compound object name = Ok tt /\
  EnumType.commit lib enum object name = Ok tt.
Proof. done. Qed.

(** C9, at a storage object that refuses the commit: [H5Tcommit2]
    returns a negative value, and neither [commit] raises an error. *)
Theorem commit_drops_failure :
  let compound :=
    {| CompoundType.members := [member "n" H5T_NATIVE_INT 0];
       CompoundType._hid :=
         H5T H5T_COMPOUND 4 false [("n"%string, 0, H5T_NATIVE_INT)] |} in
  let enum :=
    {| EnumType.members :=
         [{| EnumType.name := "FALSE"; EnumType.value := 0 |};
          {| EnumType.name := "TRUE"; EnumType.value := 1 |}];
       EnumType._hid := H5T H5T_ENUM 1 false [] |} in
  let object := {| getId := 1 |} in
  H5Tcommit2 read_only_library (getId object) "t" (CompoundType._hid compound) < 0 /\
  CompoundType.commit read_only_library compound object "t" = Ok tt /\
  H5Tcommit2 read_only_library (getId object) "b" (EnumType._hid enum) < 0 /\
  EnumType.commit read_only_library enum object "b" = Ok tt.
Proof. done. Qed.

(** ** [create_and_check_datatype] *)

(** C6: on an empty descriptor the check fails; a variable-length
    string, a reference and a fixed-length string are returned without
    looking at [sizeof(T)]; any other descriptor is returned when
    [sizeof(T)] is its byte size and rejected otherwise, with the
    size-mismatch error when the library reports a size. *)
Theorem create_and_check_datatype_checks_size (lib : H5Library) (t : hid_t)
    (sizeof_T : Z) :
  (DataType.empty t = true ->
   create_and_check_datatype lib t sizeof_T = Throw Type_not_valid) /\
  (DataType.empty t = false ->
   DataType.isVariableStr t = Ok true \/
   DataType.isReference lib t = true \/
   DataType.isFixedLenStr t = Ok true ->
   create_and_check_datatype lib t sizeof_T = Ok t) /\
  (DataType.empty t = false ->
   DataType.isVariableStr t = Ok false ->
   DataType.isReference lib t = false ->
   DataType.isFixedLenStr t = Ok false ->
   0 < sizeof_T ->
   (sizeof_T = H5Tget_size t -> create_and_check_datatype lib t sizeof_T = Ok t) /\
   (sizeof_T <> H5Tget_size t -> throws (create_and_check_datatype lib t sizeof_T)) /\
   (sizeof_T <> H5Tget_size t -> H5Tget_size t <> 0 ->
    create_and_check_datatype lib t sizeof_T
      = Throw (Size_of_array_type sizeof_T (H5Tget_size t)))).
Proof.
  unfold create_and_check_datatype. split; [|split].
  - by intros ->.
  - intros Hempty Hskip.
    destruct t as [|class size v members]; [done|]. clear Hempty.
    unfold DataType.isVariableStr in *. cbn [H5Tis_variable_str DataType.empty] in *.
    destruct v; [done|]. cbn -[DataType.isReference DataType.isFixedLenStr] in *.
    destruct Hskip as [?|[->| ->]]; [done|done|].
    by destruct (DataType.isReference _ _).
  - intros -> -> -> -> Hsizeof. simpl.
    unfold DataType.getSize, detail.h5t_get_size.
    destruct (Z.eqb_spec (H5Tget_size t) 0) as [Hzero|Hsize]; simpl.
    + rewrite Hzero. split; [lia|]. split; [by eexists|]. done.
    + destruct (Z.eqb_spec sizeof_T (H5Tget_size t)); simpl.
      * split; [done|]. split; done.
      * split; [done|]. split; [by eexists|]. done.
Qed.

Lemma create_and_check_datatype_checks_size_witness :
  create_and_check_datatype accepting_library H5T_NATIVE_INT 4 = Ok H5T_NATIVE_INT /\
  create_and_check_datatype accepting_library H5T_NATIVE_INT 8
    = Throw (Size_of_array_type 8 4) /\
  create_and_check_datatype accepting_library (H5T H5T_STRING 8 true []) 32
    = Ok (H5T H5T_STRING 8 true []) /\
  create_and_check_datatype accepting_library H5I_INVALID_HID 4
    = Throw Type_not_valid.
Proof.
  destruct (create_and_check_datatype_checks_size accepting_library H5T_NATIVE_INT 4)
    as (_ & _ & Hequal).
  destruct (create_and_check_datatype_checks_size accepting_library H5T_NATIVE_INT 8)
    as (_ & _ & Hdiffer).
  destruct (create_and_check_datatype_checks_size accepting_library
              (H5T H5T_STRING 8 true []) 32) as (_ & Hskip & _).
  destruct (create_and_check_datatype_checks_size accepting_library H5I_INVALID_HID 4)
    as (Hempty & _).
  split; [|split; [|split]].
  - apply Hequal; reflexivity.
  - apply Hdiffer; try reflexivity; try (simpl; lia).
  - apply Hskip; [reflexivity|]. left. reflexivity.
  - apply Hempty. reflexivity.
Defined.

(** ** [FixedLenStringArray<N>] *)

(** The new element: the first bytes of the source, then null bytes up
    to [N]. *)
Lemma fill_Ok N (src : list byte) src_length :
  1 <= N <= SIZE_MAX -> 0 <= src_length <= Z.of_nat (length src) ->
  let n := Z.to_nat (Z.min (N - 1) src_length) in
  FixedLenStringArray.fill N src src_length
    = Ok (take n src ++ replicate (Z.to_nat N - n) x00).
Proof.
  intros HN Hlen n. unfold FixedLenStringArray.fill.
  rewrite size_sub_small by lia.
  unfold FixedLenStringArray.memcpy, FixedLenStringArray.zero_array.
  rewrite length_replicate, Z2Nat.id by lia.
  destruct (Z.leb_spec (Z.min (N - 1) src_length) N); [|lia].
  destruct (Z.leb_spec (Z.min (N - 1) src_length) (Z.of_nat (length src))); [|lia].
  cbn [andb mbind result_bind]. fold n. rewrite drop_replicate.
  assert (Hn : (n <= length src)%nat) by lia.
  assert (HnN : (n < Z.to_nat N)%nat) by lia.
  unfold FixedLenStringArray.store.
  rewrite length_app, length_take_le, length_replicate by done.
  destruct (Z.ltb_spec (Z.min (N - 1) src_length)
              (Z.of_nat (n + (Z.to_nat N - n)))); [|lia].
  fold n. f_equal.
  rewrite insert_app_r_alt by (rewrite length_take_le; lia).
  by rewrite insert_replicate.
Qed.

Lemma push_back_Ok N datavec (src : list byte) :
  1 <= N <= SIZE_MAX ->
  let n := Z.to_nat (Z.min (N - 1) (Z.of_nat (length src))) in
  FixedLenStringArray.push_back N datavec src
    = Ok (datavec ++ [take n src ++ replicate (Z.to_nat N - n) x00]).
Proof.
  intros HN n. unfold FixedLenStringArray.push_back, FixedLenStringArray.c_str.
  rewrite fill_Ok by (rewrite ?length_app; simpl; lia).
  fold n. cbn [mbind result_bind]. by rewrite take_app_le by lia.
Qed.

(** [strlen] stops at the first null byte, if there is one. *)
Lemma strlen_first_null (array : list byte) (k : nat) :
  array !! k = Some x00 ->
  exists n : nat,
    FixedLenStringArray.strlen array = Ok (Z.of_nat n) /\ (n <= k)%nat /\
    array !! n = Some x00 /\
    forall i : nat, (i < n)%nat -> array !! i <> Some x00.
Proof.
  revert k. induction array as [|c rest IH]; intros k Hk; [done|].
  cbn [FixedLenStringArray.strlen].
  destruct (Byte.eqb c x00) eqn:Hc.
  - apply Byte.byte_dec_bl in Hc as ->. exists 0%nat.
    repeat split; [lia|]. intros i Hi. lia.
  - apply Byte.eqb_false in Hc.
    destruct k as [|k]; [simpl in Hk; congruence|].
    destruct (IH k Hk) as (n & -> & Hle & Hn & Hbefore).
    exists (S n). cbn [mbind result_bind]. repeat split.
    + f_equal. lia.
    + lia.
    + done.
    + intros [|i] Hi; simpl; [congruence|]. apply Hbefore. lia.
Qed.

(** C7: for a capacity of at least one, the string overload of
    [push_back] never fails; the element it appends has [N] bytes, starts
    with the first [min(N-1, length s)] bytes of [s], has a null byte
    right after them, at an index of at most [N-1], and [getString] on it
    returns its bytes before the first null byte.  For [N = 8] the
    element stored for "HelloWorld" is "HelloWo" and a null byte, and
    [getString] returns "HelloWo". *)
Theorem push_back_truncates (N : Z) (datavec : list (list byte))
    (s : list byte) :
  1 <= N <= SIZE_MAX ->
  let n := Z.to_nat (Z.min (N - 1) (Z.of_nat (length s))) in
  (exists back,
      FixedLenStringArray.push_back N datavec s = Ok (datavec ++ [back]) /\
      length back = Z.to_nat N /\
      take n back = take n s /\
      back !! n = Some x00 /\
      (n <= Z.to_nat N - 1)%nat /\
      (exists k : nat,
          FixedLenStringArray.getString N (datavec ++ [back]) (length datavec)
            = Ok (take k back) /\
          (k <= n)%nat /\ back !! k = Some x00 /\
          forall i : nat, (i < k)%nat -> back !! i <> Some x00)) /\
  (forall datavec',
      FixedLenStringArray.push_back 8 [] (list_byte_of_string "HelloWorld")
        = Ok datavec' ->
      datavec' = [list_byte_of_string "HelloWo" ++ [x00]] /\
      FixedLenStringArray.getString 8 datavec' 0 = Ok (list_byte_of_string "HelloWo")).
Proof.
  intros HN n. split.
  - exists (take n s ++ replicate (Z.to_nat N - n) x00).
    assert (Hn : (n <= length s)%nat) by lia.
    assert (HnN : (n < Z.to_nat N)%nat) by lia.
    assert (Hnull : (take n s ++ replicate (Z.to_nat N - n) x00) !! n = Some x00).
    { rewrite lookup_app_r by (rewrite length_take_le; lia).
      rewrite length_take_le by done. apply lookup_replicate_2. lia. }
    split; [by apply push_back_Ok|].
    split; [rewrite length_app, length_take_le, length_replicate by done; lia|].
    split; [by rewrite take_app_length' by (by rewrite length_take_le)|].
    split; [done|]. split; [lia|].
    destruct (strlen_first_null _ _ Hnull) as (k & Hstrlen & Hk & Hknull & Hbefore).
    exists k. unfold FixedLenStringArray.getString.
    rewrite lookup_app_r, Nat.sub_diag by done. cbn [lookup list_lookup].
    rewrite Hstrlen. cbn [mbind result_bind]. by rewrite Nat2Z.id.
  - intros datavec' [= <-]. done.
Qed.

Lemma push_back_truncates_witness :
  exists back,
    FixedLenStringArray.push_back 8 [] (list_byte_of_string "HelloWorld")
      = Ok [back] /\
    back = list_byte_of_string "HelloWo" ++ [x00] /\
    FixedLenStringArray.getString 8 [back] 0 = Ok (list_byte_of_string "HelloWo").
Proof.
  destruct (push_back_truncates 8 [] (list_byte_of_string "HelloWorld"))
    as [_ Hello]; [unfold SIZE_MAX; lia|].
  destruct (Hello _ eq_refl) as [Hstored Hget].
  exists (list_byte_of_string "HelloWo" ++ [x00]). by repeat split.
Defined.

(** C10: the array overload of [push_back] appends the [N] bytes of its
    argument as they are, so the new element holds a null byte exactly
    when the argument does. *)
Theorem push_back_array_copies_all (N : Z) (datavec : list (list byte))
    (src : list byte) :
  length src = Z.to_nat N ->
  exists back,
    FixedLenStringArray.push_back_array N datavec src = Ok (datavec ++ [back]) /\
    back = src /\ length back = Z.to_nat N /\ (x00 ∈ back <-> x00 ∈ src).
Proof.
  intros Hlen. exists src.
  unfold FixedLenStringArray.push_back_array, FixedLenStringArray.copy,
    FixedLenStringArray.zero_array.
  rewrite length_replicate, Hlen, Nat.leb_refl. cbn [mbind result_bind].
  rewrite drop_replicate, Nat.sub_diag, app_nil_r. done.
Qed.

Lemma push_back_array_copies_all_witness :
  exists back,
    FixedLenStringArray.push_back_array 4 [] (list_byte_of_string "abcd")
      = Ok [back] /\
    back = list_byte_of_string "abcd" /\ length back = 4%nat /\
    (x00 ∈ back <-> x00 ∈ list_byte_of_string "abcd").
Proof.
  apply (push_back_array_copies_all 4 [] (list_byte_of_string "abcd")).
  reflexivity.
Defined.

(** An element stored by the array overload need not end: the text of
    "abcd" in a [FixedLenStringArray<4>] has no null byte for
    [getString] to stop at. *)
Example getString_unterminated :
  (datavec ← FixedLenStringArray.push_back_array 4 [] (list_byte_of_string "abcd");
   FixedLenStringArray.getString 4 datavec 0) = Undefined.
Proof. reflexivity. Qed.

(** ** Construction from a range *)

Lemma fill_range_length N strings iter_begin count datavec :
  FixedLenStringArray.fill_range N strings iter_begin count = Ok datavec ->
  length datavec = count.
Proof.
  revert iter_begin datavec.
  induction count as [|count IH]; intros iter_begin datavec H; simpl in H.
  - by injection H as <-.
  - destruct (strings !! iter_begin) as [s|]; [|done].
    apply bind_Ok in H as (n & _ & H).
    apply bind_Ok in H as (dst_array & _ & H).
    apply bind_Ok in H as (rest & Hrest & H).
    injection H as <-. apply IH in Hrest. simpl. lia.
Qed.

(** The vector constructor ends its range at the last element, not past
    it: the container has one element less than the vector. *)
Lemma from_vector_length N (vec datavec : list (list byte)) :
  Z.of_nat (length vec) <= SIZE_MAX ->
  FixedLenStringArray.from_vector N vec = Ok datavec ->
  length datavec = (length vec - 1)%nat.
Proof.
  intros Hmax. unfold FixedLenStringArray.from_vector.
  destruct vec as [|s vec]; [done|].
  unfold FixedLenStringArray.from_range. intros ->%fill_range_length.
  rewrite Z.mod_small by (unfold SIZE_MAX in Hmax; simpl length in *; lia).
  simpl length. lia.
Qed.

Lemma from_initializer_list_length N (init_list datavec : list (list byte)) :
  Z.of_nat (length init_list) <= SIZE_MAX ->
  FixedLenStringArray.from_initializer_list N init_list = Ok datavec ->
  length datavec = length init_list.
Proof.
  intros Hmax. unfold FixedLenStringArray.from_initializer_list,
    FixedLenStringArray.from_range. intros ->%fill_range_length.
  rewrite Z.mod_small by (unfold SIZE_MAX in Hmax; lia). lia.
Qed.

(** C8, at a vector of two strings: the container built from the vector
    holds the first string only, while the one built from the same
    strings as an initializer list holds both. *)
Theorem from_vector_drops_last :
  let a := list_byte_of_string "alpha" in
  let b := list_byte_of_string "beta" in
  FixedLenStringArray.from_vector 8 [a; b] = Ok [a ++ [x00; x00; x00]] /\
  FixedLenStringArray.from_initializer_list 8 [a; b]
    = Ok [a ++ [x00; x00; x00]; b ++ [x00; x00; x00; x00]].
Proof. done. Qed.

(** * Further properties *)

(** ** The padding macro *)

(** X1: for a unit of at least one, the macro yields no padding exactly
    when [current_size] is already a multiple of the unit. *)
Theorem struct_padding_zero_iff_aligned (current_size align_unit : Z) :
  size_t_range current_size -> 1 <= align_unit <= SIZE_MAX ->
  _H5_STRUCT_PADDING current_size align_unit = Ok 0 <->
  current_size mod align_unit = 0.
Proof.
  intros Hc Ha. rewrite padding_opp_mod by done.
  assert (Hnz : align_unit <> 0) by lia.
  split.
  - intros [= H]. apply Z.mod_divide in H; [|done].
    apply Z.mod_divide; [done|]. destruct H as [k Hk]. exists (- k). lia.
  - intros H. f_equal. apply Z.mod_divide in H; [|done].
    apply Z.mod_divide; [done|]. destruct H as [k Hk]. exists (- k). lia.
Qed.

Lemma struct_padding_zero_iff_aligned_witness :
  _H5_STRUCT_PADDING 24 8 = Ok 0 <-> 24 mod 8 = 0.
Proof.
  apply (struct_padding_zero_iff_aligned 24 8); unfold size_t_range, SIZE_MAX; lia.
Defined.

(** ** Outcomes of [find_first_atomic_member_size] *)

Lemma find_first_atomic_member_size_outcome hid :
  (forall unit, find_first_atomic_member_size hid = Ok unit -> unit <> 0) /\
  find_first_atomic_member_size hid <> Undefined.
Proof.
  induction hid as [|class size v members IH] using hid_t_members_ind.
  - split; [|done]. intros unit H. simpl in H. done.
  - assert (Hleaf : (forall unit, detail.h5t_get_size (H5T class size v members)
                                    = Ok unit -> unit <> 0) /\
                    detail.h5t_get_size (H5T class size v members) <> Undefined).
    { unfold detail.h5t_get_size, ToException. simpl.
      destruct (Z.eqb_spec size 0); split; try done. by intros unit [= <-]. }
    destruct class; try exact Hleaf.
    + split; [|done]. by intros unit [= <-].
    + destruct members as [|[[name offset] type] rest]; [done|].
      apply Forall_cons_1 in IH as [IH _]. exact IH.
Qed.

Lemma struct_padding_defined current_size unit :
  unit <> 0 -> exists pad, _H5_STRUCT_PADDING current_size unit = Ok pad.
Proof.
  intros Hunit. unfold _H5_STRUCT_PADDING.
  destruct (Z.eqb_spec unit 0); [done|].
  destruct (unit >=? current_size); by eexists.
Qed.

(** X2: the alignment unit [find_first_atomic_member_size] returns is
    never zero, and the function has no undefined behaviour; so the
    padding in front of a member is always defined. *)
Theorem find_first_atomic_member_size_pads (hid : hid_t) (current_size : Z) :
  find_first_atomic_member_size hid <> Undefined /\
  forall unit, find_first_atomic_member_size hid = Ok unit ->
    unit <> 0 /\ exists pad, _H5_STRUCT_PADDING current_size unit = Ok pad.
Proof.
  destruct (find_first_atomic_member_size_outcome hid) as [Hnz Hdef].
  split; [done|]. intros unit Hunit. specialize (Hnz unit Hunit).
  split; [done|]. by apply struct_padding_defined.
Qed.

Lemma find_first_atomic_member_size_pads_witness :
  4 <> 0 /\ exists pad, _H5_STRUCT_PADDING 1 4 = Ok pad.
Proof.
  apply (find_first_atomic_member_size_pads H5T_NATIVE_INT 1). reflexivity.
Defined.

(** X3: [find_first_atomic_member_size] raises "No members defined"
    exactly when following first members ends in a compound without
    members. *)
Theorem find_first_atomic_member_size_no_members (hid : hid_t) :
  find_first_atomic_member_size hid = Throw No_members_defined <->
  first_atomic_member hid = None.
Proof.
  induction hid as [|class size v members IH] using hid_t_members_ind.
  - simpl. unfold detail.h5t_get_size, ToException. simpl. split; done.
  - assert (Hleaf : detail.h5t_get_size (H5T class size v members)
                      = Throw No_members_defined <-> Some (H5T class size v members) = None).
    { unfold detail.h5t_get_size, ToException. simpl.
      destruct (size =? 0); split; done. }
    destruct class; try exact Hleaf.
    + split; done.
    + destruct members as [|[[name offset] type] rest]; [done|].
      apply Forall_cons_1 in IH as [IH _]. exact IH.
Qed.

(** ** Outcomes of the first pass *)

(** One iteration: either the member type is refused and the pass
    raises, or the pass goes on with the rest. *)
Lemma first_pass_step member rest current_size max_atomic_size :
  let type := CompoundType.base_type member in
  (~ member_ok type /\
   throws (CompoundType.first_pass (member :: rest) current_size max_atomic_size)) \/
  (member_ok type /\
   exists pad,
     _H5_STRUCT_PADDING current_size (alignment_unit type) = Ok pad /\
     CompoundType.first_pass (member :: rest) current_size max_atomic_size =
       (r ← CompoundType.first_pass rest
              (size_add (size_add current_size pad) (H5Tget_size type))
              (Z.max max_atomic_size (alignment_unit type));
        Ok ({| CompoundType.name := CompoundType.name member;
               CompoundType.base_type := type;
               CompoundType.offset := size_add current_size pad |} :: r.1.1,
            r.1.2, r.2))).
Proof.
  intros type. cbn [CompoundType.first_pass]. fold type.
  unfold member_ok, detail.h5t_get_size, ToException.
  destruct (Z.eqb_spec (H5Tget_size type) 0) as [Hzero|Hsize].
  { left. split; [by intros [? _]|]. by eexists. }
  cbn [mbind result_bind].
  destruct (Z.eqb_spec (H5Tget_size type) 0); [done|].
  destruct (find_first_atomic_member_size_outcome type) as [Hnz Hdef].
  unfold alignment_unit.
  destruct (find_first_atomic_member_size type) as [unit|e|] eqn:Hunit; [| |done].
  - right. split; [by eauto|].
    destruct (struct_padding_defined current_size unit (Hnz unit eq_refl))
      as (pad & Hpad').
    cbn -[CompoundType.first_pass _H5_STRUCT_PADDING size_add Z.max].
    exists pad. split; [done|]. rewrite Hpad'.
    cbn -[CompoundType.first_pass _H5_STRUCT_PADDING size_add Z.max].
    by destruct (CompoundType.first_pass rest _ _) as [[[? ?] ?]| |].
  - left. split; [by intros [_ [? ?]]|]. by eexists.
Qed.

Lemma first_pass_not_undefined members current_size max_atomic_size :
  CompoundType.first_pass members current_size max_atomic_size <> Undefined.
Proof.
  revert current_size max_atomic_size.
  induction members as [|member rest IH]; intros cs ma; [done|].
  destruct (first_pass_step member rest cs ma) as [[_ [e ->]]|[_ (pad & _ & ->)]];
    [done|].
  specialize (IH (size_add (size_add cs pad)
                    (H5Tget_size (CompoundType.base_type member)))
                 (Z.max ma (alignment_unit (CompoundType.base_type member)))).
  by destruct (CompoundType.first_pass rest _ _).
Qed.

Lemma first_pass_Ok_iff members current_size max_atomic_size :
  (exists r, CompoundType.first_pass members current_size max_atomic_size = Ok r) <->
  Forall member_ok (CompoundType.base_type <$> members).
Proof.
  revert current_size max_atomic_size.
  induction members as [|member rest IH]; intros cs ma.
  - split; [by constructor|]. intros _. by eexists.
  - rewrite fmap_cons, Forall_cons.
    destruct (first_pass_step member rest cs ma)
      as [[Hbad [e ->]]|[Hok (pad & _ & ->)]].
    + split; [by intros [? ?]|]. by intros [? _].
    + rewrite <- (IH (size_add (size_add cs pad)
                        (H5Tget_size (CompoundType.base_type member)))
                     (Z.max ma (alignment_unit (CompoundType.base_type member)))).
      destruct (CompoundType.first_pass rest _ _) as [r| |];
        cbn [mbind result_bind]; split.
      * intros _. split; [done|]. by eexists.
      * intros _. by eexists.
      * by intros [? ?].
      * by intros [_ [? ?]].
      * by intros [? ?].
      * by intros [_ [? ?]].
Qed.

(** X4: with size 0, [create] raises before it asks the library for
    anything as soon as one member type has no size or no first atomic
    member: whatever the library would answer, the call throws. *)
Theorem create_rejects_member (lib : H5Library) (this : CompoundType.t) :
  ~ Forall member_ok (CompoundType.base_type <$> CompoundType.members this) ->
  throws (CompoundType.create lib this 0).
Proof.
  intros Hbad. unfold CompoundType.create. cbn [Z.eqb].
  pose proof (first_pass_not_undefined (CompoundType.members this) 0 0) as Hdef.
  pose proof (first_pass_Ok_iff (CompoundType.members this) 0 0) as Hok.
  destruct (CompoundType.first_pass (CompoundType.members this) 0 0) as [r|e|].
  - destruct Hbad. apply Hok. by eexists.
  - by exists e.
  - done.
Qed.

Lemma create_rejects_member_witness :
  throws (CompoundType.create accepting_library
            (new_compound [member "n" H5T_NATIVE_INT 0;
                           member "e" (H5T H5T_COMPOUND 8 false []) 0]) 0).
Proof.
  apply create_rejects_member.
  intros H. apply Forall_cons in H as [_ H]. apply Forall_cons in H as [[_ [u Hu]] _].
  discriminate Hu.
Defined.

(** What a successful first pass keeps of its input, whatever the
    sizes: names, base types, and the largest unit seen. *)
Lemma first_pass_shape members : forall current_size max_atomic_size
    members' current_size' max_atomic_size',
  0 <= max_atomic_size ->
  CompoundType.first_pass members current_size max_atomic_size
    = Ok (members', current_size', max_atomic_size') ->
  CompoundType.name <$> members' = CompoundType.name <$> members /\
  CompoundType.base_type <$> members' = CompoundType.base_type <$> members /\
  max_atomic_size' =
    Z.max max_atomic_size (max_alignment_unit (CompoundType.base_type <$> members)).
Proof.
  induction members as [|member rest IH]; intros cs ma members' cs' ma' Hma Hpass.
  - injection Hpass as <- <- <-. unfold max_alignment_unit. simpl.
    repeat split. lia.
  - apply first_pass_cons in Hpass
      as (pad & rest' & cs1 & ma1 & _ & _ & _ & Hrest & Heq).
    injection Heq as -> -> ->.
    apply IH in Hrest as (Hnames & Htypes & ->); [|lia].
    rewrite !fmap_cons. cbn [CompoundType.name CompoundType.base_type].
    rewrite Hnames, Htypes. repeat split.
    unfold max_alignment_unit. rewrite fmap_cons. cbn [foldr]. lia.
Qed.

(** The first pass does not read the offsets its input carries. *)
Lemma first_pass_ignores_offsets a : forall b current_size max_atomic_size,
  CompoundType.name <$> a = CompoundType.name <$> b ->
  CompoundType.base_type <$> a = CompoundType.base_type <$> b ->
  CompoundType.first_pass a current_size max_atomic_size
    = CompoundType.first_pass b current_size max_atomic_size.
Proof.
  induction a as [|ma resta IH]; intros [|mb restb] cs mx Hnames Htypes;
    try done.
  rewrite !fmap_cons in Hnames. rewrite !fmap_cons in Htypes.
  injection Hnames as Hname Hnames. injection Htypes as Htype Htypes.
  cbn [CompoundType.first_pass]. rewrite Hname, Htype.
  destruct (detail.h5t_get_size _) as [size| |]; [|done..].
  cbn [mbind result_bind]. destruct (size =? 0); [done|].
  destruct (find_first_atomic_member_size _) as [unit| |]; [|done..].
  cbn [mbind result_bind].
  destruct (_H5_STRUCT_PADDING cs unit) as [pad| |]; [|done..].
  cbn [mbind result_bind]. by rewrite (IH restb).
Qed.

Lemma insert_members_outcome lib members : forall _hid,
  CompoundType.insert_members lib _hid members <> Undefined /\
  forall e, CompoundType.insert_members lib _hid members = Throw e ->
            e = Could_not_add_member.
Proof.
  induction members as [|member rest IH]; intros _hid; [done|].
  cbn [CompoundType.insert_members].
  destruct (H5Tinsert lib _hid _ _ _) as [_hid'|]; [apply IH|].
  split; [done|]. by intros e [= <-].
Qed.

(** The part of [create] after the size is known never runs into
    undefined behaviour. *)
Lemma create_tail_defined lib members size :
  (let _hid := H5Tcreate lib H5T_COMPOUND size in
   if DataType.empty _hid then ToException Could_not_create_compound else
   _hid ← CompoundType.insert_members lib _hid members;
   Ok {| CompoundType.members := members; CompoundType._hid := _hid |})
  <> Undefined.
Proof.
  cbv zeta. destruct (DataType.empty _); [done|].
  destruct (insert_members_outcome lib members (H5Tcreate lib H5T_COMPOUND size))
    as [Hdef _].
  by destruct (CompoundType.insert_members _ _ _).
Qed.

(** X5: with size 0 and member types whose sizes are [size_t] values,
    [create] runs into undefined behaviour exactly when the member list
    is empty. *)
Theorem create_undefined_iff_empty (lib : H5Library) (this : CompoundType.t) :
  sizes_in_range (CompoundType.base_type <$> CompoundType.members this) ->
  CompoundType.create lib this 0 = Undefined <-> CompoundType.members this = [].
Proof.
  intros Hrange. split; [|apply create_empty_implicit_size_undefined].
  destruct (CompoundType.members this) as [|member rest] eqn:Hmembers; [done|].
  intros Hcreate. exfalso. revert Hcreate.
  unfold CompoundType.create. cbn [Z.eqb]. rewrite Hmembers.
  pose proof (first_pass_not_undefined (member :: rest) 0 0) as Hdef.
  destruct (CompoundType.first_pass (member :: rest) 0 0)
    as [[[members' cs] ma]|e|] eqn:Hpass; [|done..].
  pose proof Hpass as Hshape. apply first_pass_shape in Hshape as (_ & _ & ->); [|lia].
  apply first_pass_cons in Hpass as (_ & _ & _ & _ & _ & Hunit & _).
  rewrite fmap_cons in Hrange. apply Forall_cons in Hrange as [[_ Hu] _].
  unfold size_t_range in Hu.
  assert (Hpad : exists pad,
             _H5_STRUCT_PADDING cs
               (Z.max 0 (max_alignment_unit
                           (CompoundType.base_type <$> member :: rest))) = Ok pad).
  { unfold _H5_STRUCT_PADDING, max_alignment_unit.
    rewrite !fmap_cons. cbn [foldr].
    destruct (Z.eqb_spec (Z.max 0 (Z.max (alignment_unit (CompoundType.base_type member))
                                     (foldr Z.max 0
                                        (alignment_unit <$>
                                         (CompoundType.base_type <$> rest))))) 0);
      [lia|].
    destruct (_ >=? _); by eexists. }
  cbn [mbind result_bind]. destruct Hpad as [pad ->]. cbn [mbind result_bind].
  apply create_tail_defined.
Qed.

Lemma create_undefined_iff_empty_witness :
  CompoundType.create accepting_library (new_compound []) 0 = Undefined <->
  CompoundType.members (new_compound []) = [].
Proof.
  apply (create_undefined_iff_empty accepting_library (new_compound [])).
  constructor.
Defined.

(** X6: with an explicit size, [create] has no undefined behaviour, and
    the only errors it raises are the two library refusals: of the
    compound itself, raised whenever [H5Tcreate] fails, and of a member. *)
Theorem create_explicit_size_outcomes (lib : H5Library) (this : CompoundType.t)
    (size : Z) :
  size <> 0 ->
  CompoundType.create lib this size <> Undefined /\
  (forall e, CompoundType.create lib this size = Throw e ->
     e = Could_not_create_compound \/ e = Could_not_add_member) /\
  (H5Tcreate_fails lib H5T_COMPOUND size = true ->
   CompoundType.create lib this size = Throw Could_not_create_compound).
Proof.
  intros Hsize. unfold CompoundType.create, ToException.
  destruct (Z.eqb_spec size 0); [done|]. cbn [mbind result_bind].
  unfold H5Tcreate.
  destruct (H5Tcreate_fails lib H5T_COMPOUND size); cbn [DataType.empty].
  - split; [done|]. split; [|done]. intros e [= <-]. by left.
  - destruct (insert_members_outcome lib (CompoundType.members this)
                (H5T H5T_COMPOUND size false [])) as [Hdef Hthrow].
    destruct (CompoundType.insert_members _ _ _) as [_hid|e|];
      cbn [mbind result_bind].
    + split; [done|]. split; done.
    + split; [done|]. split; [|done]. intros e' [= <-]. right. by apply Hthrow.
    + done.
Qed.

Lemma create_explicit_size_outcomes_witness :
  CompoundType.create accepting_library (new_compound []) 16 <> Undefined /\
  (forall e, CompoundType.create accepting_library (new_compound []) 16 = Throw e ->
     e = Could_not_create_compound \/ e = Could_not_add_member) /\
  (H5Tcreate_fails accepting_library H5T_COMPOUND 16 = true ->
   CompoundType.create accepting_library (new_compound []) 16
     = Throw Could_not_create_compound).
Proof.
  apply (create_explicit_size_outcomes accepting_library (new_compound []) 16).
  discriminate.
Defined.

(** ** What [create] keeps and what it ignores *)

Lemma create_members_kept lib this this' size :
  CompoundType.create lib this size = Ok this' ->
  CompoundType.name <$> CompoundType.members this'
    = CompoundType.name <$> CompoundType.members this /\
  CompoundType.base_type <$> CompoundType.members this'
    = CompoundType.base_type <$> CompoundType.members this.
Proof.
  intros Hcreate.
  apply create_Ok in Hcreate as (members' & size' & Hsize & ->).
  cbn [CompoundType.members]. destruct (size =? 0).
  - destruct Hsize as (cs & ma & pad & Hpass & _).
    apply first_pass_shape in Hpass as (? & ? & _); [done|lia].
  - by destruct Hsize as [-> _].
Qed.

(** X7: a successful [create], with or without an explicit size, keeps
    the names and the base types of the members in declaration order, in
    its own member list and in the compound it builds. *)
Theorem create_keeps_names_and_types (lib : H5Library)
    (this this' : CompoundType.t) (size : Z) :
  CompoundType.create lib this size = Ok this' ->
  CompoundType.name <$> CompoundType.members this'
    = CompoundType.name <$> CompoundType.members this /\
  CompoundType.base_type <$> CompoundType.members this'
    = CompoundType.base_type <$> CompoundType.members this /\
  (fun m => m.1.1) <$> H5Tget_members (CompoundType._hid this')
    = CompoundType.name <$> CompoundType.members this /\
  member_type <$> H5Tget_members (CompoundType._hid this')
    = CompoundType.base_type <$> CompoundType.members this.
Proof.
  intros Hcreate.
  destruct (create_members_kept _ _ _ _ Hcreate) as [Hnames Htypes].
  apply create_Ok in Hcreate as (members' & size' & _ & ->).
  cbn [CompoundType.members CompoundType._hid H5Tget_members] in *.
  rewrite <- !list_fmap_compose. by rewrite <- Hnames, <- Htypes.
Qed.

Lemma create_keeps_names_and_types_witness :
  let this' :=
    {| CompoundType.members :=
         [member "c" H5T_NATIVE_CHAR 0; member "n" H5T_NATIVE_INT 4];
       CompoundType._hid :=
         H5T H5T_COMPOUND 8 false
           [("c"%string, 0, H5T_NATIVE_CHAR); ("n"%string, 4, H5T_NATIVE_INT)] |} in
  CompoundType.name <$> CompoundType.members this' = ["c"%string; "n"%string] /\
  CompoundType.base_type <$> CompoundType.members this'
    = [H5T_NATIVE_CHAR; H5T_NATIVE_INT] /\
  (fun m => m.1.1) <$> H5Tget_members (CompoundType._hid this')
    = ["c"%string; "n"%string] /\
  member_type <$> H5Tget_members (CompoundType._hid this')
    = [H5T_NATIVE_CHAR; H5T_NATIVE_INT].
Proof.
  intros this'.
  apply (create_keeps_names_and_types accepting_library
           (new_compound [member "c" H5T_NATIVE_CHAR 7; member "n" H5T_NATIVE_INT 9])
           this' 0).
  reflexivity.
Defined.

(** X8: with size 0, [create] does not read the offsets the members were
    declared with: two member lists with the same names and base types
    give the same outcome. *)
Theorem create_ignores_declared_offsets (lib : H5Library)
    (a b : CompoundType.t) :
  CompoundType.name <$> CompoundType.members a
    = CompoundType.name <$> CompoundType.members b ->
  CompoundType.base_type <$> CompoundType.members a
    = CompoundType.base_type <$> CompoundType.members b ->
  CompoundType.create lib a 0 = CompoundType.create lib b 0.
Proof.
  intros Hnames Htypes. unfold CompoundType.create. cbn [Z.eqb].
  by rewrite (first_pass_ignores_offsets _ _ 0 0 Hnames Htypes).
Qed.

Lemma create_ignores_declared_offsets_witness :
  CompoundType.create accepting_library
    (new_compound [member "c" H5T_NATIVE_CHAR 7; member "n" H5T_NATIVE_INT 9]) 0
  = CompoundType.create accepting_library
      {| CompoundType.members :=
           [member "c" H5T_NATIVE_CHAR 0; member "n" H5T_NATIVE_INT 1];
         CompoundType._hid := H5T_NATIVE_INT |} 0.
Proof. apply create_ignores_declared_offsets; reflexivity. Defined.

(** X9: with size 0, [create] on the compound it has just returned
    returns the same compound again. *)
Theorem create_twice (lib : H5Library) (this this' : CompoundType.t) :
  CompoundType.create lib this 0 = Ok this' ->
  CompoundType.create lib this' 0 = Ok this'.
Proof.
  intros Hcreate. rewrite <- Hcreate.
  apply create_members_kept in Hcreate as [Hnames Htypes].
  unfold CompoundType.create. cbn [Z.eqb].
  by rewrite (first_pass_ignores_offsets _ _ 0 0 Hnames Htypes).
Qed.

Lemma create_twice_witness :
  let this' :=
    {| CompoundType.members :=
         [member "c" H5T_NATIVE_CHAR 0; member "n" H5T_NATIVE_INT 4];
       CompoundType._hid :=
         H5T H5T_COMPOUND 8 false
           [("c"%string, 0, H5T_NATIVE_CHAR); ("n"%string, 4, H5T_NATIVE_INT)] |} in
  CompoundType.create accepting_library this' 0 = Ok this'.
Proof.
  intros this'.
  apply (create_twice accepting_library
           (new_compound [member "c" H5T_NATIVE_CHAR 0; member "n" H5T_NATIVE_INT 0])).
  reflexivity.
Defined.

(** ** Alignment and tightness of the computed layout *)

Lemma first_pass_placed members : forall current_size max_atomic_size
    members' current_size' max_atomic_size',
  let types := CompoundType.base_type <$> members in
  size_t_range current_size ->
  sizes_in_range types ->
  natural_end types current_size <= SIZE_MAX ->
  CompoundType.first_pass members current_size max_atomic_size
    = Ok (members', current_size', max_atomic_size') ->
  placed current_size (CompoundType.inserted <$> members') current_size'.
Proof.
  induction members as [|member rest IH];
    intros cs ma members' cs' ma' types Hcs Hrange Hfit Hpass.
  - by injection Hpass as <- <- <-.
  - apply first_pass_cons in Hpass
      as (pad & rest' & cs1 & ma1 & Hsize & Hunit & Hpad & Hrest & Heq).
    injection Heq as -> -> ->.
    pose proof (natural_end_ge _ _ _ _ Hrest) as Hge_rest.
    subst types. rewrite fmap_cons in Hfit, Hrange.
    apply Forall_cons in Hrange as [[Hs Hu] Hrange].
    specialize (Hge_rest Hrange).
    remember (CompoundType.base_type member) as type eqn:Htype.
    unfold size_t_range in Hs, Hu, Hcs.
    rewrite padding_opp_mod in Hpad by (unfold size_t_range; lia).
    injection Hpad as <-.
    pose proof (Z.mod_pos_bound (- cs) (alignment_unit type) ltac:(lia)) as Hmod.
    cbn [natural_end] in Hfit.
    rewrite fmap_cons. cbn [placed]. unfold member_end, member_offset, member_type.
    cbn [CompoundType.inserted CompoundType.name CompoundType.offset
         CompoundType.base_type fst snd].
    remember ((- cs) mod alignment_unit type) as pad eqn:Hpad.
    pose proof (Hge_rest (cs + pad + H5Tget_size type)).
    rewrite (size_add_small cs pad) in Hrest |- * by lia.
    rewrite size_add_small in Hrest by lia.
    split; [lia|]. split; [by rewrite Hpad|].
    eapply IH; [| |done|done]; [unfold size_t_range; lia|done].
Qed.

(** The layout [create] computes, in closed form. *)
Lemma create_placed lib this this' :
  representable (CompoundType.base_type <$> CompoundType.members this) ->
  CompoundType.create lib this 0 = Ok this' ->
  let types := CompoundType.base_type <$> CompoundType.members this in
  placed 0 (H5Tget_members (CompoundType._hid this')) (natural_end types 0) /\
  member_type <$> H5Tget_members (CompoundType._hid this') = types /\
  (CompoundType.members this <> [] ->
   H5Tget_size (CompoundType._hid this') = natural_size types /\
   1 <= max_alignment_unit types).
Proof.
  intros [Hrange Hfit] Hcreate. cbv zeta.
  destruct (create_members_kept _ _ _ _ Hcreate) as [_ Htypes].
  apply create_Ok in Hcreate as (members' & size' & Hsize & ->).
  cbn [Z.eqb] in Hsize. destruct Hsize as (cs & ma & pad & Hpass & Hpad & ->).
  cbn [CompoundType._hid CompoundType.members H5Tget_members H5Tget_size] in *.
  rewrite <- list_fmap_compose.
  replace (member_type ∘ CompoundType.inserted) with CompoundType.base_type by done.
  pose proof (natural_end_ge _ _ _ _ Hpass Hrange 0) as Hge.
  pose proof (max_alignment_unit_range _ Hrange) as Hmax.
  unfold size_t_range in Hmax.
  assert (Hunit : CompoundType.members this <> [] ->
                  1 <= max_alignment_unit
                         (CompoundType.base_type <$> CompoundType.members this)).
  { destruct (CompoundType.members this) as [|m rest] eqn:E; [done|]. intros _.
    apply first_pass_cons in Hpass as (_ & _ & _ & _ & _ & Hu & _).
    rewrite fmap_cons in Hrange |- *.
    apply Forall_cons in Hrange as [[_ Hu'] _]. unfold size_t_range in Hu'.
    unfold max_alignment_unit. rewrite fmap_cons. cbn [foldr]. lia. }
  unfold natural_size in *. cbv zeta in *.
  assert (Hempty : CompoundType.members this = [] ->
                   natural_end (CompoundType.base_type <$> CompoundType.members this) 0
                   = 0) by (by intros ->).
  remember (CompoundType.base_type <$> CompoundType.members this) as types
    eqn:Htypes_eq.
  remember ((- natural_end types 0) mod max_alignment_unit types) as pad' eqn:Hpad'.
  assert (Hpos : CompoundType.members this <> [] -> 0 <= pad').
  { intros Hne. specialize (Hunit Hne). subst pad'.
    apply Z.mod_pos_bound. lia. }
  assert (Hfit' : natural_end types 0 <= SIZE_MAX).
  { destruct (decide (CompoundType.members this = [])) as [Hnil|Hne].
    - rewrite (Hempty Hnil). unfold SIZE_MAX. lia.
    - specialize (Hpos Hne). lia. }
  pose proof Hpass as Hnat.
  apply first_pass_natural in Hnat as (-> & -> & _ & _ & _);
    [|unfold size_t_range, SIZE_MAX; lia|lia|by subst types|subst types; lia].
  apply first_pass_placed in Hpass;
    [|unfold size_t_range, SIZE_MAX; lia|by subst types|subst types; lia].
  rewrite <- Htypes_eq in Hpass, Hpad |- *.
  split; [done|]. split; [done|].
  intros Hne. specialize (Hunit Hne). specialize (Hpos Hne).
  split; [|done].
  rewrite Z.max_r in Hpad by lia.
  rewrite padding_opp_mod in Hpad by (unfold size_t_range; lia).
  rewrite <- Hpad' in Hpad. injection Hpad as <-.
  apply size_add_small. lia.
Qed.

Lemma placed_elem_of current_size ms last m :
  placed current_size ms last -> m ∈ ms ->
  1 <= alignment_unit (member_type m) /\
  member_offset m mod alignment_unit (member_type m) = 0.
Proof.
  revert current_size. induction ms as [|m' rest IH]; intros c Hplaced Hin.
  - by apply elem_of_nil in Hin.
  - destruct Hplaced as (Hunit & Hoffset & Hrest).
    apply elem_of_cons in Hin as [->|Hin]; [|by eapply IH].
    split; [done|]. rewrite Hoffset, Zplus_mod_idemp_r.
    replace (c + - c) with 0 by ring. apply Z.mod_0_l. lia.
Qed.

Lemma placed_lookup_succ current_size ms last (i : nat) mi mj :
  placed current_size ms last ->
  ms !! i = Some mi -> ms !! S i = Some mj ->
  1 <= alignment_unit (member_type mj) /\
  member_offset mj
    = member_end mi + (- member_end mi) mod alignment_unit (member_type mj).
Proof.
  revert current_size i.
  induction ms as [|m rest IH]; intros c i Hplaced Hi Hj; [done|].
  destruct Hplaced as (_ & _ & Hrest).
  destruct i as [|i]; simpl in Hi, Hj.
  - injection Hi as ->. destruct rest as [|m' rest']; [done|].
    injection Hj as ->. by destruct Hrest as (? & ? & _).
  - by eapply IH.
Qed.

Lemma placed_last current_size ms final m :
  placed current_size ms final -> last ms = Some m -> final = member_end m.
Proof.
  revert current_size. induction ms as [|m' rest IH]; intros c Hplaced Hlast; [done|].
  destruct Hplaced as (_ & _ & Hrest).
  destruct rest as [|m'' rest'].
  - injection Hlast as <-. done.
  - by eapply IH.
Qed.

(** X10: after [create] with size 0 on a representable member list,
    every member of the compound starts at a multiple of its alignment
    unit, and that unit is at least one. *)
Theorem create_offsets_aligned (lib : H5Library) (this this' : CompoundType.t) :
  representable (CompoundType.base_type <$> CompoundType.members this) ->
  CompoundType.create lib this 0 = Ok this' ->
  forall m, m ∈ H5Tget_members (CompoundType._hid this') ->
    1 <= alignment_unit (member_type m) /\
    member_offset m mod alignment_unit (member_type m) = 0.
Proof.
  intros Hrep Hcreate m Hm.
  destruct (create_placed _ _ _ Hrep Hcreate) as (Hplaced & _).
  by eapply placed_elem_of.
Qed.

Lemma create_offsets_aligned_witness :
  1 <= alignment_unit (member_type ("n"%string, 4, H5T_NATIVE_INT)) /\
  member_offset ("n"%string, 4, H5T_NATIVE_INT)
    mod alignment_unit (member_type ("n"%string, 4, H5T_NATIVE_INT)) = 0.
Proof.
  apply (create_offsets_aligned accepting_library
           (new_compound [member "c" H5T_NATIVE_CHAR 0; member "n" H5T_NATIVE_INT 0])
           {| CompoundType.members :=
                [member "c" H5T_NATIVE_CHAR 0; member "n" H5T_NATIVE_INT 4];
              CompoundType._hid :=
                H5T H5T_COMPOUND 8 false
                  [("c"%string, 0, H5T_NATIVE_CHAR); ("n"%string, 4, H5T_NATIVE_INT)] |}).
  - split.
    + repeat constructor; vm_compute; congruence.
    + vm_compute. congruence.
  - reflexivity.
  - cbn [CompoundType._hid H5Tget_members]. apply elem_of_cons. right.
    apply elem_of_cons. by left.
Defined.

(** X11: the layout [create] computes with size 0 on a representable
    member list has no more padding than alignment asks for: the first
    member is at offset 0, the gap in front of any later member is less
    than its alignment unit, and the padding after the last member is
    less than the largest alignment unit. *)
Theorem create_layout_tight (lib : H5Library) (this this' : CompoundType.t) :
  representable (CompoundType.base_type <$> CompoundType.members this) ->
  CompoundType.create lib this 0 = Ok this' ->
  let ms := H5Tget_members (CompoundType._hid this') in
  (forall m, ms !! 0%nat = Some m -> member_offset m = 0) /\
  (forall (i : nat) mi mj, ms !! i = Some mi -> ms !! S i = Some mj ->
     member_end mi <= member_offset mj
       < member_end mi + alignment_unit (member_type mj)) /\
  (forall m, last ms = Some m ->
     member_end m <= H5Tget_size (CompoundType._hid this')
       < member_end m + max_alignment_unit (member_type <$> ms)).
Proof.
  intros Hrep Hcreate. cbv zeta.
  destruct (create_placed _ _ _ Hrep Hcreate) as (Hplaced & Htypes & Hsize).
  split; [|split].
  - intros m Hm.
    destruct (H5Tget_members (CompoundType._hid this')) as [|m' rest]; [done|].
    injection Hm as ->. destruct Hplaced as (Hunit & -> & _).
    simpl. apply Z.mod_0_l. lia.
  - intros i mi mj Hi Hj.
    destruct (placed_lookup_succ _ _ _ _ _ _ Hplaced Hi Hj) as [Hunit ->].
    pose proof (Z.mod_pos_bound (- member_end mi) (alignment_unit (member_type mj))
                  ltac:(lia)).
    lia.
  - intros m Hlast.
    assert (Hne : CompoundType.members this <> []).
    { intros Hnil. rewrite Hnil in Htypes.
      destruct (H5Tget_members (CompoundType._hid this')); done. }
    destruct (Hsize Hne) as [-> Hunit].
    pose proof (placed_last _ _ _ _ Hplaced Hlast) as Hend.
    rewrite Htypes. unfold natural_size. cbv zeta. rewrite Hend.
    match type of Hunit with
    | 1 <= ?unit =>
        pose proof (Z.mod_pos_bound (- member_end m) unit ltac:(lia));
        remember ((- member_end m) mod unit) as pad
    end.
    lia.
Qed.

Lemma create_layout_tight_witness :
  let ms := [("c"%string, 0, H5T_NATIVE_CHAR); ("n"%string, 4, H5T_NATIVE_INT)] in
  (forall m, ms !! 0%nat = Some m -> member_offset m = 0) /\
  (forall (i : nat) mi mj, ms !! i = Some mi -> ms !! S i = Some mj ->
     member_end mi <= member_offset mj
       < member_end mi + alignment_unit (member_type mj)) /\
  (forall m, last ms = Some m ->
     member_end m <= 8 < member_end m + max_alignment_unit (member_type <$> ms)).
Proof.
  apply (create_layout_tight accepting_library
           (new_compound [member "c" H5T_NATIVE_CHAR 0; member "n" H5T_NATIVE_INT 0])
           {| CompoundType.members :=
                [member "c" H5T_NATIVE_CHAR 0; member "n" H5T_NATIVE_INT 4];
              CompoundType._hid :=
                H5T H5T_COMPOUND 8 false
                  [("c"%string, 0, H5T_NATIVE_CHAR); ("n"%string, 4, H5T_NATIVE_INT)] |}).
  - split.
    + repeat constructor; vm_compute; congruence.
    + vm_compute. congruence.
  - reflexivity.
Defined.

(** ** When [create] succeeds *)

Lemma insert_members_accepted lib members : forall class size v inserted_before,
  (forall parent name offset type,
      H5Tinsert_fails lib parent name offset type = false) ->
  CompoundType.insert_members lib (H5T class size v inserted_before) members
    = Ok (H5T class size v (inserted_before ++ (CompoundType.inserted <$> members))).
Proof.
  induction members as [|m rest IH]; intros class size v before Haccept.
  - simpl. by rewrite app_nil_r.
  - cbn [CompoundType.insert_members]. unfold H5Tinsert. rewrite Haccept.
    rewrite IH by done. by rewrite <- app_assoc.
Qed.

(** X12: with size 0, a non-empty list of member types that all have a
    size and a first atomic member, and whose layout is representable,
    [create] returns a compound whenever the library accepts compounds of
    non-zero size and accepts the insertions. *)
Theorem create_succeeds (lib : H5Library) (this : CompoundType.t) :
  CompoundType.members this <> [] ->
  Forall member_ok (CompoundType.base_type <$> CompoundType.members this) ->
  representable (CompoundType.base_type <$> CompoundType.members this) ->
  (forall size, size <> 0 -> H5Tcreate_fails lib H5T_COMPOUND size = false) ->
  (forall parent name offset type,
      H5Tinsert_fails lib parent name offset type = false) ->
  exists this', CompoundType.create lib this 0 = Ok this'.
Proof.
  intros Hne Hok [Hrange Hfit] Hcreate Hinsert.
  apply first_pass_Ok_iff with (current_size := 0) (max_atomic_size := 0) in Hok
    as [[[members' cs] ma] Hpass].
  unfold CompoundType.create. cbn [Z.eqb]. rewrite Hpass. cbn [mbind result_bind].
  pose proof (max_alignment_unit_range _ Hrange) as Hmax. unfold size_t_range in Hmax.
  assert (Hfirst : exists m rest, CompoundType.members this = m :: rest).
  { destruct (CompoundType.members this) as [|m rest]; [done|]. by eexists _, _. }
  destruct Hfirst as (m & rest & Hmembers).
  assert (Hlayout : 1 <= max_alignment_unit
                          (CompoundType.base_type <$> CompoundType.members this) /\
                    1 <= natural_end
                           (CompoundType.base_type <$> CompoundType.members this) 0).
  { rewrite Hmembers in Hpass, Hrange |- *.
    apply first_pass_cons in Hpass
      as (pad & rest' & cs1 & ma1 & Hsize & Hunit & _ & Hrest & _).
    rewrite fmap_cons in Hrange |- *.
    apply Forall_cons in Hrange as [[Hs Hu] Hrange].
    unfold size_t_range in Hs, Hu. split.
    - unfold max_alignment_unit. rewrite fmap_cons. cbn [foldr]. lia.
    - cbn [natural_end].
      pose proof (natural_end_ge _ _ _ _ Hrest Hrange) as Hge.
      match goal with
      | |- 1 <= natural_end _ ?c => specialize (Hge c)
      end.
      pose proof (Z.mod_pos_bound (- 0) (alignment_unit (CompoundType.base_type m))
                    ltac:(lia)).
      remember ((- 0) mod alignment_unit (CompoundType.base_type m)) as pad0.
      lia. }
  destruct Hlayout as [Hunit Hend].
  unfold natural_size in Hfit. cbv zeta in Hfit.
  remember (CompoundType.base_type <$> CompoundType.members this) as types
    eqn:Htypes.
  pose proof (Z.mod_pos_bound (- natural_end types 0) (max_alignment_unit types)
                ltac:(lia)) as Hmod.
  remember ((- natural_end types 0) mod max_alignment_unit types) as pad eqn:Hpad.
  apply first_pass_natural in Hpass as (-> & -> & _);
    [|unfold size_t_range, SIZE_MAX; lia|lia|by subst types|subst types; lia].
  rewrite <- Htypes. rewrite Z.max_r by lia.
  rewrite padding_opp_mod by (unfold size_t_range; lia).
  rewrite <- Hpad. cbn [mbind result_bind].
  rewrite size_add_small by lia.
  unfold H5Tcreate. rewrite Hcreate by lia. cbn [DataType.empty].
  rewrite insert_members_accepted by done. cbn [mbind result_bind]. by eexists.
Qed.

Lemma create_succeeds_witness :
  exists this',
    CompoundType.create accepting_library
      (new_compound [member "x" H5T_NATIVE_DOUBLE 0; member "c" H5T_NATIVE_CHAR 0]) 0
    = Ok this'.
Proof.
  apply create_succeeds.
  - discriminate.
  - repeat constructor; try (simpl; congruence); by eexists.
  - split.
    + repeat constructor; vm_compute; congruence.
    + vm_compute. congruence.
  - intros size Hsize. simpl. by apply Z.eqb_neq.
  - done.
Defined.

(** ** [DataType]: comparison and string checks *)



(** X14: [isFixedLenStr] never raises: it answers "no" for an empty
    [DataType], on which [isVariableStr] raises, and for a type that is
    not empty it holds exactly for strings that are not variable-length. *)
Theorem isFixedLenStr_never_raises (t : hid_t) :
  DataType.isFixedLenStr t
    = Ok (bool_decide (H5Tget_class t = H5T_STRING) &&
          bool_decide (H5Tis_variable_str t = 0)) /\
  (throws (DataType.isVariableStr t) <-> DataType.empty t = true) /\
  ~ (DataType.isFixedLenStr t = Ok true /\ DataType.isVariableStr t = Ok true).
Proof.
  destruct t as [|class size v members].
  - split; [done|]. split; [|by intros [_ ?]]. split; [done|]. intros _. by eexists.
  - unfold DataType.isFixedLenStr, DataType.isVariableStr, DataType.getClass.
    cbn [H5Tget_class H5Tis_variable_str DataType.empty].
    split; [|split].
    + destruct class, v; done.
    + destruct v; split; try done; by intros [e ?].
    + destruct class, v; by intros [? ?].
Qed.

(** ** [create_and_check_datatype]: strings and outcomes *)

Lemma create_and_check_datatype_string_aux lib t sizeof_T :
  H5Tget_class t = H5T_STRING ->
  create_and_check_datatype lib t sizeof_T = Ok t.
Proof.
  intros Hclass. destruct t as [|class size v members]; [done|].
  simpl in Hclass. subst class. unfold create_and_check_datatype.
  cbn [DataType.empty]. unfold DataType.isVariableStr.
  cbn [H5Tis_variable_str]. destruct v; [done|].
  cbn -[DataType.isReference]. by destruct (DataType.isReference _ _).
Qed.

(** X15: a string descriptor, fixed-length or variable-length, passes
    the check whatever [sizeof(T)] is. *)
Theorem create_and_check_datatype_string (lib : H5Library) (t : hid_t)
    (sizeof_T : Z) :
  H5Tget_class t = H5T_STRING ->
  create_and_check_datatype lib t sizeof_T = Ok t /\
  DataType.empty t = false.
Proof.
  intros Hclass. split; [by apply create_and_check_datatype_string_aux|].
  by destruct t.
Qed.

Lemma create_and_check_datatype_string_witness :
  create_and_check_datatype accepting_library (H5T H5T_STRING 10 false []) 1
    = Ok (H5T H5T_STRING 10 false []) /\
  DataType.empty (H5T H5T_STRING 10 false []) = false.
Proof. apply create_and_check_datatype_string. reflexivity. Defined.

(** X16: [create_and_check_datatype] has no undefined behaviour; what it
    returns is the descriptor it was given, which is then not empty; and
    a size-mismatch error carries [sizeof(T)] and the byte size of the
    descriptor, which differ, for a descriptor that is not a string. *)
Theorem create_and_check_datatype_outcomes (lib : H5Library) (t : hid_t)
    (sizeof_T : Z) :
  create_and_check_datatype lib t sizeof_T <> Undefined /\
  (forall t', create_and_check_datatype lib t sizeof_T = Ok t' ->
     t' = t /\ DataType.empty t = false) /\
  (forall a b,
     create_and_check_datatype lib t sizeof_T = Throw (Size_of_array_type a b) ->
     a = sizeof_T /\ b = H5Tget_size t /\ a <> b /\ b <> 0 /\
     H5Tget_class t <> H5T_STRING).
Proof.
  destruct (decide (H5Tget_class t = H5T_STRING)) as [Hstring|Hother].
  { rewrite (create_and_check_datatype_string_aux lib t sizeof_T Hstring).
    split; [done|]. split; [|done]. intros t' [= <-]. split; [done|].
    by destruct t. }
  unfold create_and_check_datatype.
  destruct t as [|class size v members]; [done|].
  cbn [DataType.empty]. unfold DataType.isVariableStr.
  cbn [H5Tis_variable_str]. destruct v; [by split; [|split; [intros ? [= <-]|]]|].
  cbn -[DataType.isReference DataType.isFixedLenStr].
  destruct (DataType.isReference _ _);
    [by split; [|split; [intros ? [= <-]|]]|].
  unfold DataType.isFixedLenStr. cbn -[bool_decide].
  destruct (bool_decide _); cbn [mbind result_bind negb];
    [by split; [|split; [intros ? [= <-]|]]|].
  unfold DataType.getSize, detail.h5t_get_size, ToException. cbn [H5Tget_size].
  destruct (Z.eqb_spec size 0); [done|]. cbn [mbind result_bind].
  destruct (Z.eqb_spec sizeof_T size); cbn [negb].
  - by split; [|split; [intros ? [= <-]|]].
  - split; [done|]. split; [done|]. by intros a b [= <- <-].
Qed.

(** ** [DataType::string] *)

Lemma type_class_string_inj c1 c2 (d1 d2 : string) :
  type_class_string c1 +:+ d1 = type_class_string c2 +:+ d2 ->
  c1 = c2 /\ d1 = d2.
Proof.
  destruct c1, c2; cbn; intros H; try discriminate H;
    (split; [reflexivity|]); by simplify_eq.
Qed.

Lemma to_string_inj (n m : Z) :
  0 <= n -> 0 <= m -> to_string n = to_string m -> n = m.
Proof.
  unfold to_string. intros Hn Hm H.
  assert (Huint : N.to_uint (Z.to_N n) = N.to_uint (Z.to_N m)).
  { apply (f_equal NilEmpty.uint_of_string) in H.
    rewrite !NilEmpty.usu in H. by injection H. }
  apply DecimalN.Unsigned.to_uint_inj in Huint. lia.
Qed.

(** X17: the text [DataType::string] renders determines the class and
    the bit width: two datatypes rendered alike have the same class and
    the same size in bits (as computed in [size_t]); and the call raises
    exactly when the library reports no size. *)
Theorem string_determines_class_and_width (a b : hid_t) :
  (forall s, DataType.string a = Ok s -> DataType.string b = Ok s ->
     DataType.getClass a = DataType.getClass b /\
     size_mul (H5Tget_size a) 8 = size_mul (H5Tget_size b) 8) /\
  (throws (DataType.string a) <-> H5Tget_size a = 0).
Proof.
  unfold DataType.string, DataType.getSize, detail.h5t_get_size, ToException.
  split.
  - intros s.
    destruct (H5Tget_size a =? 0), (H5Tget_size b =? 0); try done.
    cbn [mbind result_bind]. intros [= <-] [= H].
    apply type_class_string_inj in H as [Hclass Hwidth].
    split; [done|]. symmetry. apply to_string_inj; [| |done];
      unfold size_mul; apply Z.mod_pos_bound; lia.
  - destruct (Z.eqb_spec (H5Tget_size a) 0); cbn [mbind result_bind].
    + split; [done|]. intros _. by eexists.
    + split; [by intros [e ?]|done].
Qed.

(** The rendering the specification quotes. *)
Example string_Float64 : DataType.string H5T_NATIVE_DOUBLE = Ok "Float64"%string.
Proof. reflexivity. Qed.

(** ** [FixedLenStringArray<N>]: contents and round trips *)

Lemma first_null_le (s : list byte) : (first_null s <= length s)%nat.
Proof.
  induction s as [|c rest IH]; simpl; [lia|]. destruct (Byte.eqb c x00); lia.
Qed.

Lemma first_null_no_null (s : list byte) : x00 ∉ s -> first_null s = length s.
Proof.
  induction s as [|c rest IH]; intros Hs; [done|]. simpl.
  apply not_elem_of_cons in Hs as [Hc Hrest].
  destruct (Byte.eqb c x00) eqn:E; [by apply Byte.byte_dec_bl in E|].
  by rewrite IH.
Qed.

Lemma strlen_c_str (s : list byte) :
  FixedLenStringArray.strlen (FixedLenStringArray.c_str s)
    = Ok (Z.of_nat (first_null s)).
Proof.
  unfold FixedLenStringArray.c_str.
  induction s as [|c rest IH]; [done|]. simpl.
  destruct (Byte.eqb c x00); [done|]. rewrite IH. cbn [mbind result_bind].
  f_equal. lia.
Qed.

(** The text [getString] finds in an array filled with the first [n]
    bytes of [s] and null bytes after them. *)
Lemma strlen_padded N (s : list byte) (n : nat) :
  (n <= length s)%nat -> (n < Z.to_nat N)%nat ->
  FixedLenStringArray.strlen (padded N s n)
    = Ok (Z.of_nat (Nat.min n (first_null s))).
Proof.
  unfold padded. intros Hn HN.
  replace (Z.to_nat N - n)%nat with (S (Z.to_nat N - n - 1)) by lia.
  generalize (Z.to_nat N - n - 1)%nat. clear HN. intros k. revert n Hn.
  induction s as [|c rest IH]; intros n Hn.
  - simpl in Hn. replace n with 0%nat by lia. done.
  - destruct n as [|n]; [done|]. simpl in Hn. simpl.
    destruct (Byte.eqb c x00); [done|].
    rewrite IH by lia. cbn [mbind result_bind]. f_equal. lia.
Qed.

Lemma take_padded N (s : list byte) (n k : nat) :
  (k <= n)%nat -> (n <= length s)%nat -> take k (padded N s n) = take k s.
Proof.
  intros Hk Hn. unfold padded.
  rewrite take_app_le by (rewrite length_take_le; lia).
  rewrite take_take. f_equal. lia.
Qed.

Lemma length_padded N (s : list byte) (n : nat) :
  (n <= length s)%nat -> (n <= Z.to_nat N)%nat ->
  length (padded N s n) = Z.to_nat N.
Proof.
  intros Hn HN. unfold padded.
  rewrite length_app, length_take_le, length_replicate by done. lia.
Qed.

(** X18: for a capacity of at least one, [getString] on the element the
    string overload of [push_back] has just appended returns the string
    cut at [N-1] bytes and at its first null byte; a string of at most
    [N-1] bytes without null bytes is read back unchanged. *)
Theorem getString_push_back (N : Z) (datavec : list (list byte))
    (s : list byte) :
  1 <= N <= SIZE_MAX ->
  exists datavec',
    FixedLenStringArray.push_back N datavec s = Ok datavec' /\
    FixedLenStringArray.getString N datavec' (length datavec)
      = Ok (take (copied N s) s) /\
    (x00 ∉ s -> Z.of_nat (length s) <= N - 1 ->
     FixedLenStringArray.getString N datavec' (length datavec) = Ok s).
Proof.
  intros HN. eexists. split; [by apply push_back_Ok|].
  set (n := Z.to_nat (Z.min (N - 1) (Z.of_nat (length s)))).
  assert (Hn : (n <= length s)%nat) by lia.
  assert (HnN : (n < Z.to_nat N)%nat) by lia.
  assert (Hget : FixedLenStringArray.getString N
                   (datavec ++ [take n s ++ replicate (Z.to_nat N - n) x00])
                   (length datavec) = Ok (take (copied N s) s)).
  { unfold FixedLenStringArray.getString.
    rewrite lookup_app_r, Nat.sub_diag by done. cbn [lookup list_lookup].
    fold (padded N s n). rewrite strlen_padded by done.
    cbn [mbind result_bind]. rewrite Nat2Z.id.
    pose proof (first_null_le s).
    rewrite take_padded by lia. f_equal. f_equal. unfold copied. lia. }
  split; [done|]. intros Hnull Hlen. rewrite Hget. f_equal.
  apply take_ge. unfold copied. rewrite first_null_no_null by done. lia.
Qed.

Lemma getString_push_back_witness :
  exists datavec',
    FixedLenStringArray.push_back 8 [] (list_byte_of_string "Hello") = Ok datavec' /\
    FixedLenStringArray.getString 8 datavec' 0
      = Ok (take (copied 8 (list_byte_of_string "Hello")) (list_byte_of_string "Hello")) /\
    (x00 ∉ list_byte_of_string "Hello" ->
     Z.of_nat (length (list_byte_of_string "Hello")) <= 8 - 1 ->
     FixedLenStringArray.getString 8 datavec' 0 = Ok (list_byte_of_string "Hello")).
Proof.
  apply (getString_push_back 8 [] (list_byte_of_string "Hello")).
  unfold SIZE_MAX. lia.
Defined.

Lemma fill_length N (src : list byte) src_length dst_array :
  FixedLenStringArray.fill N src src_length = Ok dst_array ->
  length dst_array = Z.to_nat N.
Proof.
  unfold FixedLenStringArray.fill, FixedLenStringArray.memcpy,
    FixedLenStringArray.store, FixedLenStringArray.zero_array.
  rewrite length_replicate.
  set (len := Z.min (size_sub N 1) src_length).
  destruct (Z.leb_spec len (Z.of_nat (Z.to_nat N))) as [HN|]; [|done].
  destruct (Z.leb_spec len (Z.of_nat (length src))) as [Hsrc|]; [|done].
  cbn [andb mbind result_bind].
  destruct (_ <? _); [|done]. intros [= <-].
  rewrite length_insert, length_app, length_take, length_drop, length_replicate.
  lia.
Qed.

(** X19: a call of [push_back] that returns, with a string or with an
    array of [N] bytes, appends exactly one element of [N] bytes and
    leaves the elements stored before as they were. *)
Theorem push_back_appends (N : Z) (datavec datavec' : list (list byte))
    (src : list byte) :
  FixedLenStringArray.push_back N datavec src = Ok datavec' \/
  (length src = Z.to_nat N /\
   FixedLenStringArray.push_back_array N datavec src = Ok datavec') ->
  exists back,
    datavec' = datavec ++ [back] /\ length back = Z.to_nat N /\
    forall i : nat, (i < length datavec)%nat ->
      FixedLenStringArray.getString N datavec' i
        = FixedLenStringArray.getString N datavec i.
Proof.
  intros Hpush.
  assert (Hback : exists back, datavec' = datavec ++ [back] /\
                               length back = Z.to_nat N).
  { destruct Hpush as [Hpush|[Hlen Hpush]].
    - apply bind_Ok in Hpush as (back & Hfill & [= <-]).
      exists back. split; [done|]. by eapply fill_length.
    - apply bind_Ok in Hpush as (back & Hcopy & [= <-]).
      exists back. split; [done|].
      unfold FixedLenStringArray.copy, FixedLenStringArray.zero_array in Hcopy.
      destruct (_ <=? _)%nat; [|done]. injection Hcopy as <-.
      rewrite length_app, length_drop, length_replicate. lia. }
  destruct Hback as (back & -> & Hlen). exists back.
  split; [done|]. split; [done|]. intros i Hi.
  unfold FixedLenStringArray.getString. by rewrite lookup_app_l.
Qed.

Lemma push_back_appends_witness :
  exists back,
    [list_byte_of_string "ab" ++ [x00]; list_byte_of_string "c" ++ [x00; x00]]
      = [list_byte_of_string "ab" ++ [x00]] ++ [back] /\
    length back = Z.to_nat 3 /\
    forall i : nat, (i < length [list_byte_of_string "ab" ++ [x00]])%nat ->
      FixedLenStringArray.getString 3
        [list_byte_of_string "ab" ++ [x00]; list_byte_of_string "c" ++ [x00; x00]] i
        = FixedLenStringArray.getString 3 [list_byte_of_string "ab" ++ [x00]] i.
Proof.
  apply (push_back_appends 3 [list_byte_of_string "ab" ++ [x00]] _
           (list_byte_of_string "c")).
  left. reflexivity.
Defined.

(** X20: for every capacity 0, the string overload of [push_back] has
    undefined behaviour whatever the string: [N - 1] wraps around and
    the terminating null byte is written outside the empty array. *)
Theorem push_back_capacity_zero (datavec : list (list byte)) (src : list byte) :
  FixedLenStringArray.push_back 0 datavec src = Undefined.
Proof.
  unfold FixedLenStringArray.push_back, FixedLenStringArray.fill,
    FixedLenStringArray.memcpy, FixedLenStringArray.store,
    FixedLenStringArray.zero_array, FixedLenStringArray.c_str.
  change (replicate (Z.to_nat 0) x00) with (@nil byte). cbn [length].
  set (len := Z.min (size_sub 0 1) (Z.of_nat (length src))).
  assert (Hlen : 0 <= len).
  { subst len. unfold size_sub. change ((0 - 1) mod 2 ^ 64) with SIZE_MAX.
    unfold SIZE_MAX. lia. }
  destruct (Z.leb_spec len (Z.of_nat 0)); [|done].
  destruct (len <=? _); [|done]. cbn [andb mbind result_bind].
  rewrite length_app, length_take, length_drop. cbn [length].
  destruct (Z.ltb_spec len (Z.of_nat (Nat.min (Z.to_nat len) (length (src ++ [x00]))
                                      + (0 - Z.to_nat len)))); [lia|done].
Qed.

(** ** The range constructors, element by element *)

Lemma fill_c_str N (s : list byte) :
  1 <= N <= SIZE_MAX ->
  FixedLenStringArray.fill N (FixedLenStringArray.c_str s)
      (Z.of_nat (first_null s))
    = Ok (padded N s (copied N s)).
Proof.
  intros HN. pose proof (first_null_le s) as Hle.
  unfold FixedLenStringArray.c_str.
  rewrite fill_Ok by (rewrite ?length_app; simpl; lia).
  unfold padded, copied. by rewrite take_app_le by lia.
Qed.

Lemma fill_range_content N (strings : list (list byte)) (count : nat) :
  1 <= N <= SIZE_MAX -> forall iter_begin : nat,
  (iter_begin + count <= length strings)%nat ->
  FixedLenStringArray.fill_range N strings iter_begin count
    = Ok ((fun s => padded N s (copied N s)) <$> take count (drop iter_begin strings)).
Proof.
  intros HN. induction count as [|count IH]; intros iter_begin Hrange; [done|].
  cbn [FixedLenStringArray.fill_range].
  destruct (lookup_lt_is_Some_2 strings iter_begin ltac:(lia)) as [s Hs].
  rewrite Hs, strlen_c_str. cbn [mbind result_bind].
  rewrite fill_c_str by done. cbn [mbind result_bind].
  rewrite IH by lia. cbn [mbind result_bind].
  by rewrite (drop_S _ _ _ Hs).
Qed.

Lemma from_initializer_list_Ok N (init_list : list (list byte)) :
  1 <= N <= SIZE_MAX -> Z.of_nat (length init_list) <= SIZE_MAX ->
  FixedLenStringArray.from_initializer_list N init_list
    = Ok ((fun s => padded N s (copied N s)) <$> init_list).
Proof.
  intros HN Hlen.
  unfold FixedLenStringArray.from_initializer_list, FixedLenStringArray.from_range.
  rewrite Z.sub_0_r, Z.mod_small by (unfold SIZE_MAX in Hlen; lia).
  rewrite fill_range_content by (done || lia).
  rewrite Nat2Z.id, drop_0. by rewrite take_ge.
Qed.

(** X21: for a capacity of at least one, the initializer-list
    constructor stores one array per string: the string cut at [N-1]
    bytes and at its first null byte, then null bytes up to [N]; and
    [getString] reads back that cut string. *)
Theorem from_initializer_list_content (N : Z) (init_list : list (list byte)) :
  1 <= N <= SIZE_MAX -> Z.of_nat (length init_list) <= SIZE_MAX ->
  let datavec := (fun s => padded N s (copied N s)) <$> init_list in
  FixedLenStringArray.from_initializer_list N init_list = Ok datavec /\
  forall (i : nat) s, init_list !! i = Some s ->
    FixedLenStringArray.getString N datavec i = Ok (take (copied N s) s).
Proof.
  intros HN Hlen datavec. split; [by apply from_initializer_list_Ok|].
  intros i s Hs. unfold FixedLenStringArray.getString. subst datavec.
  rewrite list_lookup_fmap, Hs. cbn [fmap option_fmap option_map].
  pose proof (first_null_le s). unfold copied at 1 2.
  rewrite strlen_padded by lia. cbn [mbind result_bind].
  rewrite Nat2Z.id, take_padded by lia. f_equal. f_equal. unfold copied. lia.
Qed.

Lemma from_initializer_list_content_witness :
  let init_list := [list_byte_of_string "alpha"; list_byte_of_string "be"] in
  let datavec := (fun s => padded 4 s (copied 4 s)) <$> init_list in
  FixedLenStringArray.from_initializer_list 4 init_list = Ok datavec /\
  forall (i : nat) s, init_list !! i = Some s ->
    FixedLenStringArray.getString 4 datavec i = Ok (take (copied 4 s) s).
Proof.
  apply (from_initializer_list_content 4
           [list_byte_of_string "alpha"; list_byte_of_string "be"]);
    unfold SIZE_MAX; simpl; lia.
Defined.

Lemma fill_range_prefix N (strings more : list (list byte)) (count : nat) :
  forall iter_begin : nat,
  (iter_begin + count <= length strings)%nat ->
  FixedLenStringArray.fill_range N (strings ++ more) iter_begin count
    = FixedLenStringArray.fill_range N strings iter_begin count.
Proof.
  induction count as [|count IH]; intros iter_begin Hrange; [done|].
  cbn [FixedLenStringArray.fill_range].
  rewrite lookup_app_l by lia.
  destruct (strings !! iter_begin) as [s|]; [|done].
  by rewrite IH by lia.
Qed.

(** X22: built from a non-empty vector, the container is the one the
    initializer-list constructor builds from the vector without its last
    string, whatever the outcome. *)
Theorem from_vector_is_from_all_but_last (N : Z) (vec : list (list byte)) :
  vec <> [] -> Z.of_nat (length vec) <= SIZE_MAX ->
  FixedLenStringArray.from_vector N vec
    = FixedLenStringArray.from_initializer_list N (take (length vec - 1) vec).
Proof.
  intros Hne Hlen.
  unfold FixedLenStringArray.from_vector, FixedLenStringArray.from_initializer_list,
    FixedLenStringArray.from_range.
  destruct vec as [|s rest]; [done|].
  remember (s :: rest) as vec eqn:Hvec.
  assert (Hpos : (1 <= length vec)%nat) by (subst vec; simpl; lia).
  rewrite length_take_le by lia.
  replace (Z.to_nat ((Z.of_nat (length vec) - 1 - 0) mod 2 ^ 64))
    with (length vec - 1)%nat
    by (rewrite Z.mod_small by (unfold SIZE_MAX in Hlen; lia); lia).
  replace (Z.to_nat ((Z.of_nat (length vec - 1) - 0) mod 2 ^ 64))
    with (length vec - 1)%nat
    by (rewrite Z.mod_small by (unfold SIZE_MAX in Hlen; lia); lia).
  transitivity
    (FixedLenStringArray.fill_range N
       (take (length vec - 1) vec ++ drop (length vec - 1) vec)
       (Z.to_nat 0) (length vec - 1)); [by rewrite take_drop|].
  apply fill_range_prefix. rewrite length_take_le by lia. simpl. lia.
Qed.

Lemma from_vector_is_from_all_but_last_witness :
  FixedLenStringArray.from_vector 8
    [list_byte_of_string "alpha"; list_byte_of_string "beta"]
  = FixedLenStringArray.from_initializer_list 8 [list_byte_of_string "alpha"].
Proof.
  apply (from_vector_is_from_all_but_last 8
           [list_byte_of_string "alpha"; list_byte_of_string "beta"]).
  - discriminate.
  - unfold SIZE_MAX. simpl. lia.
Defined.

Lemma push_back_all_Ok N (strings : list (list byte)) :
  1 <= N <= SIZE_MAX -> forall datavec,
  push_back_all N datavec strings
    = Ok (datavec ++
          ((fun s => padded N s (Z.to_nat (Z.min (N - 1) (Z.of_nat (length s)))))
             <$> strings)).
Proof.
  intros HN. unfold push_back_all.
  induction strings as [|s rest IH]; intros datavec.
  - simpl. by rewrite app_nil_r.
  - cbn [foldl mbind result_bind]. rewrite push_back_Ok by done.
    rewrite IH, fmap_cons, <- app_assoc. done.
Qed.

(** X23: for a capacity of at least one and strings without null bytes,
    calling [push_back] for each string on an empty container gives the
    container the initializer-list constructor builds from them. *)
Theorem push_back_all_is_from_initializer_list (N : Z)
    (strings : list (list byte)) :
  1 <= N <= SIZE_MAX -> Z.of_nat (length strings) <= SIZE_MAX ->
  Forall (fun s => x00 ∉ s) strings ->
  push_back_all N [] strings
    = FixedLenStringArray.from_initializer_list N strings.
Proof.
  intros HN Hlen Hnull.
  rewrite push_back_all_Ok, from_initializer_list_Ok by done.
  f_equal. cbn [app]. apply Forall_fmap_ext_1.
  eapply Forall_impl; [exact Hnull|]. intros s Hs. cbn beta.
  unfold copied. by rewrite first_null_no_null.
Qed.

Lemma push_back_all_is_from_initializer_list_witness :
  push_back_all 4 [] [list_byte_of_string "alpha"; list_byte_of_string "be"]
    = FixedLenStringArray.from_initializer_list 4
        [list_byte_of_string "alpha"; list_byte_of_string "be"].
Proof.
  apply push_back_all_is_from_initializer_list.
  - unfold SIZE_MAX. lia.
  - unfold SIZE_MAX. simpl. lia.
  - repeat constructor; intros H; by repeat (apply elem_of_cons in H as [?|H]; [done|]);
      apply elem_of_nil in H.
Defined.

(** With a null byte inside the string the two differ: [push_back]
    copies the bytes after it, the range constructor stops at it. *)
Example embedded_null_differs :
  let s := list_byte_of_string "ab" ++ [x00] ++ list_byte_of_string "cd" in
  FixedLenStringArray.push_back 8 [] s = Ok [s ++ [x00; x00; x00]] /\
  FixedLenStringArray.from_initializer_list 8 [s]
    = Ok [list_byte_of_string "ab" ++ [x00; x00; x00; x00; x00; x00]].
Proof. done. Qed.

(** ** More on the computed layout *)

Lemma placed_consecutive current_size ms final :
  placed current_size ms final ->
  Forall (fun m => 0 <= H5Tget_size (member_type m)) ms ->
  consecutive current_size ms final.
Proof.
  revert current_size. induction ms as [|m rest IH]; intros c Hplaced Hsizes.
  - simpl in *. lia.
  - destruct Hplaced as (Hunit & Hoffset & Hrest).
    apply Forall_cons in Hsizes as [Hsize Hsizes].
    pose proof (Z.mod_pos_bound (- c) (alignment_unit (member_type m)) ltac:(lia)).
    remember ((- c) mod alignment_unit (member_type m)) as pad.
    cbn [consecutive]. unfold member_end in *.
    split; [lia|]. split; [lia|]. by apply IH.
Qed.

Lemma consecutive_members_size current_size ms final :
  consecutive current_size ms final -> current_size + members_size ms <= final.
Proof.
  revert current_size. induction ms as [|m rest IH]; intros c Hcons.
  - unfold members_size. simpl in *. lia.
  - destruct Hcons as (H1 & H2 & Hrest). apply IH in Hrest.
    unfold members_size in *. rewrite fmap_cons. cbn [foldr].
    unfold member_end in *. lia.
Qed.

(** X24: after [create] with size 0 on a representable member list,
    every member has a size of at least one byte, the offsets increase
    strictly in declaration order, and the total size is at least the
    sum of the member sizes. *)
Theorem create_layout_strict (lib : H5Library) (this this' : CompoundType.t) :
  representable (CompoundType.base_type <$> CompoundType.members this) ->
  CompoundType.create lib this 0 = Ok this' ->
  let ms := H5Tget_members (CompoundType._hid this') in
  (forall m, m ∈ ms -> 1 <= H5Tget_size (member_type m)) /\
  (forall (i j : nat) mi mj, (i < j)%nat -> ms !! i = Some mi -> ms !! j = Some mj ->
     member_offset mi < member_offset mj) /\
  members_size ms <= H5Tget_size (CompoundType._hid this').
Proof.
  intros Hrep Hcreate. cbv zeta.
  destruct (create_placed _ _ _ Hrep Hcreate) as (Hplaced & Htypes & Hsize).
  destruct Hrep as [Hrange Hfit].
  assert (Hok : Forall member_ok
                  (CompoundType.base_type <$> CompoundType.members this)).
  { apply create_Ok in Hcreate as (members' & size' & Hpass & _).
    cbn [Z.eqb] in Hpass. destruct Hpass as (cs & ma & pad & Hpass & _).
    apply (first_pass_Ok_iff _ 0 0). by eexists. }
  assert (Hsizes : Forall (fun m => 1 <= H5Tget_size (member_type m))
                     (H5Tget_members (CompoundType._hid this'))).
  { unfold sizes_in_range in Hrange. rewrite <- Htypes in Hrange, Hok.
    rewrite Forall_fmap in Hrange. rewrite Forall_fmap in Hok.
    apply Forall_forall. intros m Hm.
    rewrite Forall_forall in Hrange. rewrite Forall_forall in Hok.
    destruct (Hrange m Hm) as [[Hs _] _]. destruct (Hok m Hm) as [Hnz _].
    cbn [compose] in *. lia. }
  assert (Hcons : consecutive 0 (H5Tget_members (CompoundType._hid this'))
                    (natural_end
                       (CompoundType.base_type <$> CompoundType.members this) 0)).
  { apply placed_consecutive; [done|].
    eapply Forall_impl; [exact Hsizes|]. intros m Hm. cbn beta in *. lia. }
  split; [by apply Forall_forall|]. split.
  - intros i j mi mj Hij Hi Hj.
    pose proof (consecutive_lookup_lt _ _ _ _ _ _ _ Hcons Hij Hi Hj) as Hlt.
    rewrite Forall_forall in Hsizes.
    pose proof (Hsizes mi (list_elem_of_lookup_2 _ _ _ Hi)).
    unfold member_end in Hlt. lia.
  - pose proof (consecutive_members_size _ _ _ Hcons) as Hsum.
    destruct (decide (CompoundType.members this = [])) as [Hnil|Hne].
    + rewrite Hnil in Htypes.
      destruct (H5Tget_members (CompoundType._hid this')); [|done].
      apply create_Ok in Hcreate as (members' & size' & Hpass & _).
      cbn [Z.eqb] in Hpass. destruct Hpass as (cs & ma & pad & Hpass & Hpad & _).
      rewrite Hnil in Hpass. injection Hpass as <- <- <-. done.
    + destruct (Hsize Hne) as [-> Hunit]. unfold natural_size. cbv zeta.
      match type of Hunit with
      | 1 <= ?unit =>
          match goal with
          | |- _ <= ?e + _ =>
              pose proof (Z.mod_pos_bound (- e) unit ltac:(lia));
              remember ((- e) mod unit) as pad
          end
      end.
      lia.
Qed.

Lemma create_layout_strict_witness :
  let ms := [("c"%string, 0, H5T_NATIVE_CHAR); ("n"%string, 4, H5T_NATIVE_INT)] in
  (forall m, m ∈ ms -> 1 <= H5Tget_size (member_type m)) /\
  (forall (i j : nat) mi mj, (i < j)%nat -> ms !! i = Some mi -> ms !! j = Some mj ->
     member_offset mi < member_offset mj) /\
  members_size ms <= 8.
Proof.
  apply (create_layout_strict accepting_library
           (new_compound [member "c" H5T_NATIVE_CHAR 0; member "n" H5T_NATIVE_INT 0])
           {| CompoundType.members :=
                [member "c" H5T_NATIVE_CHAR 0; member "n" H5T_NATIVE_INT 4];
              CompoundType._hid :=
                H5T H5T_COMPOUND 8 false
                  [("c"%string, 0, H5T_NATIVE_CHAR); ("n"%string, 4, H5T_NATIVE_INT)] |}).
  - split.
    + repeat constructor; vm_compute; congruence.
    + vm_compute. congruence.
  - reflexivity.
Defined.

(** ** When [getString] is defined *)

Lemma strlen_outcome (array : list byte) :
  (forall e, FixedLenStringArray.strlen array <> Throw e) /\
  (FixedLenStringArray.strlen array = Undefined <-> x00 ∉ array).
Proof.
  induction array as [|c rest [IHthrow IHundef]].
  - split; [done|]. split; [intros _; apply not_elem_of_nil|done].
  - cbn [FixedLenStringArray.strlen].
    destruct (Byte.eqb c x00) eqn:Hc.
    + apply Byte.byte_dec_bl in Hc as ->. split; [done|].
      split; [done|]. intros Hnot. destruct Hnot. by left.
    + apply Byte.eqb_false in Hc. rewrite not_elem_of_cons, <- IHundef.
      destruct (FixedLenStringArray.strlen rest) as [n|e|];
        cbn [mbind result_bind].
      * split; [done|]. split; [done|]. by intros [_ ?].
      * by destruct (IHthrow e).
      * split; [done|]. split; [|done]. intros _. split; [congruence|done].
Qed.

(** X25: [getString] raises no error; it has undefined behaviour exactly
    when the index is past the last element or the element holds no null
    byte, and otherwise returns the bytes of the element before its
    first null byte. *)
Theorem getString_defined (N : Z) (datavec : list (list byte)) (i : nat) :
  (forall e, FixedLenStringArray.getString N datavec i <> Throw e) /\
  (FixedLenStringArray.getString N datavec i = Undefined <->
   (length datavec <= i)%nat \/ exists array, datavec !! i = Some array /\ x00 ∉ array) /\
  (forall array, datavec !! i = Some array -> x00 ∈ array ->
     FixedLenStringArray.getString N datavec i = Ok (take (first_null array) array)).
Proof.
  unfold FixedLenStringArray.getString.
  destruct (datavec !! i) as [array|] eqn:Hi.
  - destruct (strlen_outcome array) as [Hthrow Hundef].
    apply lookup_lt_Some in Hi as Hlt. split; [|split].
    + intros e. specialize (Hthrow e).
      destruct (FixedLenStringArray.strlen array); cbn [mbind result_bind]; congruence.
    + split.
      * intros H. right. exists array. split; [done|]. apply Hundef.
        by destruct (FixedLenStringArray.strlen array).
      * intros [?|(a & [= <-] & Ha)]; [lia|]. apply Hundef in Ha. by rewrite Ha.
    + intros a [= <-] Hnull.
      apply list_elem_of_lookup in Hnull as [k Hk].
      destruct (strlen_first_null _ _ Hk) as (n & -> & _ & Hn & Hbefore).
      cbn [mbind result_bind]. rewrite Nat2Z.id. f_equal. f_equal.
      clear -Hn Hbefore. revert n Hn Hbefore.
      induction array as [|c rest IH]; intros n Hn Hbefore; [done|].
      simpl. destruct (Byte.eqb c x00) eqn:Hc.
      * apply Byte.byte_dec_bl in Hc as ->.
        destruct n as [|n]; [done|]. by destruct (Hbefore 0%nat ltac:(lia)).
      * apply Byte.eqb_false in Hc. destruct n as [|n]; [simpl in Hn; congruence|].
        f_equal. apply IH; [done|]. intros j Hj. apply (Hbefore (S j)). lia.
  - apply lookup_ge_None in Hi. split; [done|]. split; [|done].
    split; [by left|done].
Qed.
